(** * localGPT: the Watson X provider adapter and the composition root

    A shallow embedding of [rag_system/utils/watsonx_client.py] and
    [rag_system/factory.py].

    Python values are a small inductive type, dictionaries are finite maps
    with string keys, and statements run in a state-and-exception monad whose
    state records everything the code does to the outside: what it prints,
    what it yields, and which calls it makes to the IBM SDK.  The SDK itself
    is a record of oracles, one per entry point the code uses. *)

From Stdlib Require Import Ascii String Floats.SpecFloat.
From stdpp Require Import base option list strings gmap fin_maps.

Set Warnings "-register-all,-clear-no-such-hyp".

(** ** Python values *)

Module Py.

(** An object the code only passes around or renders with [str()]: it is
    known by the name of its type and by its rendering. *)
Inductive pyval : Type :=
  | VNone
  | VBool (b : bool)
  | VInt (z : Z)
  | VFloat (f : spec_float)
  | VStr (s : string)
  | VList (l : list pyval)
  | VDict (d : gmap string pyval)
  | VObj (type_name : string) (rendering : string).

Abbreviation pydict := (gmap string pyval).

(** [bool(v)]: what an [if v:] tests. *)
Definition truthy (v : pyval) : bool :=
  match v with
  | VNone => false
  | VBool b => b
  | VInt z => negb (Z.eqb z 0)
  | VFloat (S754_zero _) => false
  | VFloat _ => true
  | VStr s => negb (String.eqb s "")
  | VList l => match l with [] => false | _ :: _ => true end
  | VDict d => negb (bool_decide (d = ∅))
  | VObj _ _ => true
  end.

(** [type(v).__name__] *)
Definition type_name (v : pyval) : string :=
  match v with
  | VNone => "NoneType"
  | VBool _ => "bool"
  | VInt _ => "int"
  | VFloat _ => "float"
  | VStr _ => "str"
  | VList _ => "list"
  | VDict _ => "dict"
  | VObj n _ => n
  end.

(** [v[0]] and [v.get(k, default)] are defined below, once exceptions are. *)

End Py.
Export Py.

(** ** Exceptions

    The classes the code distinguishes, all of them subclasses of
    [Exception]: an [except Exception] clause catches every [exc].
    [ModuleNotFoundError] is a subclass of [ImportError]; [OtherException]
    stands for any class that no handler of the code names (a network or an
    authentication error of the SDK, say).  An exception is known by its
    class and by [str(e)]. *)

Inductive exc_class : Type :=
  | AttributeError
  | ImportError
  | ModuleNotFoundError
  | KeyError
  | IndexError
  | TypeError
  | ValueError
  | SystemError
  | OtherException (name : string).

Record exc : Type := Exc { exc_cls : exc_class; exc_str : string }.

(** [isinstance(e, AttributeError)] *)
Definition is_AttributeError (e : exc) : bool :=
  match exc_cls e with AttributeError => true | _ => false end.

(** [isinstance(e, ImportError)] *)
Definition is_ImportError (e : exc) : bool :=
  match exc_cls e with ImportError | ModuleNotFoundError => true | _ => false end.

(** [isinstance(e, Exception)] *)
Definition is_Exception (e : exc) : bool := true.

Inductive outcome (A : Type) : Type :=
  | Ok (a : A)
  | Raise (e : exc).
Arguments Ok {A} a.
Arguments Raise {A} e.

(** ** Statements: state passing with exceptions

    A raise keeps the state reached so far: Python undoes nothing. *)

Definition M (S A : Type) : Type := S → outcome A * S.

Definition ret {S A} (a : A) : M S A := fun s => (Ok a, s).

Definition raise {S A} (e : exc) : M S A := fun s => (Raise e, s).

Definition bind {S A B} (m : M S A) (k : A → M S B) : M S B :=
  fun s => match m s with
           | (Ok a, s') => k a s'
           | (Raise e, s') => (Raise e, s')
           end.

(** [try: body / except C as e: handler e], [catches e] being
    [isinstance(e, C)]. *)
Definition try_except {S A} (body : M S A) (catches : exc → bool)
    (handler : exc → M S A) : M S A :=
  fun s => match body s with
           | (Ok a, s') => (Ok a, s')
           | (Raise e, s') => if catches e then handler e s' else (Raise e, s')
           end.

(** An outcome computed without touching the state. *)
Definition lift_outcome {S A} (o : outcome A) : M S A := fun s => (o, s).

(** A constructor or call of the SDK that may refuse its arguments. *)
Definition check {S} (o : option exc) : M S unit :=
  match o with
  | None => ret tt
  | Some e => raise e
  end.

(** A statement on a part of the state, run on the whole of it. *)
Definition zoom {S T A} (get : S → T) (set : T → S → S) (m : M T A) : M S A :=
  fun s => let (o, t') := m (get s) in (o, set t' s).

Declare Scope py_scope.
Delimit Scope py_scope with py.
Notation "'let*' x ':=' m 'in' k" := (bind m (fun x => k))
  (at level 10, x binder, m at level 100, k at level 200) : py_scope.
Open Scope py_scope.

(** [v[0]] *)
Definition subscript0 (v : pyval) : outcome pyval :=
  match v with
  | VList [] => Raise (Exc IndexError "list index out of range")
  | VList (x :: _) => Ok x
  | VStr EmptyString => Raise (Exc IndexError "string index out of range")
  | VStr (String c _) => Ok (VStr (String c EmptyString))
  | VDict _ => Raise (Exc KeyError "0")
  | _ => Raise (Exc TypeError ("'" +:+ type_name v +:+ "' object is not subscriptable"))
  end.

(** [v.get(k, default)] *)
Definition get_method (v : pyval) (k : string) (default : pyval) : outcome pyval :=
  match v with
  | VDict d => Ok (match d !! k with Some x => x | None => default end)
  | _ => Raise (Exc AttributeError ("'" +:+ type_name v +:+ "' object has no attribute 'get'"))
  end.

(** [d[k]] on a dictionary *)
Definition getitem (d : pydict) (k : string) : outcome pyval :=
  match d !! k with
  | Some v => Ok v
  | None => Raise (Exc KeyError ("'" +:+ k +:+ "'"))
  end.

(** ** The IBM SDK, as the adapter sees it

    The objects of [ibm_watsonx_ai] that the code builds are records of the
    arguments it builds them from; whether a constructor or a call raises,
    and what a call returns, is the SDK's business. *)

Record Credentials : Type :=
  { cred_api_key : pyval; cred_url : pyval }.

Record APIClient : Type :=
  { api_credentials : Credentials; default_project : option pyval }.

Record TextGenParameters : Type :=
  { tgp_kwargs : pydict }.

Record ModelInference : Type :=
  { model_id : string;
    mi_credentials : Credentials;
    mi_project_id : pyval;
    params : option TextGenParameters }.

Record Embeddings : Type :=
  { emb_model_id : string;
    emb_credentials : Credentials;
    emb_project_id : pyval }.

(** What [model_inference.generate] returns: a dict, or any other object,
    of which the code only takes [str(result)]. *)
Inductive gen_result : Type :=
  | GDict (d : pydict)
  | GOther (rendering : string).

(** What iterating [model_inference.generate_text_stream(...)] gives: the
    chunks it produces, then the end of the stream or an exception.  A
    method that is missing, or that raises when called, is a stream with no
    chunk that ends in that exception. *)
Record text_stream : Type :=
  { chunks : list pyval; ending : option exc }.

Record SDK : Type :=
  { (* from ibm_watsonx_ai import APIClient, Credentials, ... *)
    import_sdk : option exc;
    Credentials_init : Credentials → option exc;
    APIClient_init : Credentials → option exc;
    set_default_project : APIClient → pyval → option exc;
    TextGenParameters_init : pydict → option exc;
    ModelInference_init : ModelInference → option exc;
    generate : ModelInference → string → outcome gen_result;
    generate_text_stream : ModelInference → string → text_stream;
    (* from ibm_watsonx_ai.foundation_models import Embeddings *)
    import_Embeddings : option exc;
    Embeddings_init : Embeddings → option exc;
    embed_query : Embeddings → string → outcome pyval }.

(** ** What the code does to the outside *)

Inductive event : Type :=
  | Print (line : string)
  | Yield (chunk : pyval)
  | Import_sdk
  | New_Credentials (c : Credentials)
  | New_APIClient (c : Credentials)
  | Set_default_project (project : pyval)
  | New_TextGenParameters (kwargs : pydict)
  | New_ModelInference (mi : ModelInference)
  | Call_generate (mi : ModelInference) (prompt : string)
  | Call_generate_text_stream (mi : ModelInference) (prompt : string)
  | Import_Embeddings
  | New_Embeddings (e : Embeddings)
  | Call_embed_query (e : Embeddings) (text : string)
  | Load_dotenv
  | New_OllamaClient (host : pyval).

Abbreviation trace := (list event).

Definition emit (e : event) : M trace unit := fun tr => (Ok tt, tr ++ [e]).

(** [print(line)] *)
Definition print (line : string) : M trace unit := emit (Print line).

(** The chunks a generator has yielded, in order. *)
Definition yielded (tr : trace) : list pyval :=
  omap (fun e => match e with Yield v => Some v | _ => None end) tr.

(** ** rag_system/utils/watsonx_client.py *)

Module WatsonXClient.

(** The attributes [__init__] sets on [self]. *)
Record t : Type :=
  { api_key : pyval;
    project_id : pyval;
    url : pyval;
    credentials : Credentials;
    client : APIClient }.

Definition default_url : pyval := VStr "https://us-south.ml.cloud.ibm.com".

(** [d.get(k)]: [None] when the key is absent. *)
Definition dict_get (d : pydict) (k : string) : pyval :=
  match d !! k with Some v => v | None => VNone end.

(** [if images:] on an [Optional[List[Image]]]. *)
Definition truthy_images (images : option (list pyval)) : bool :=
  match images with
  | None => truthy VNone
  | Some l => truthy (VList l)
  end.

(** [if kwargs.get(name): gen_params[target] = kwargs[name]] *)
Definition forward_param (kwargs : pydict) (name target : string)
    (gen_params : pydict) : M trace pydict :=
  if truthy (dict_get kwargs name) then
    let* v := lift_outcome (getitem kwargs name) in
    ret (<[target := v]> gen_params)
  else ret gen_params.

(** [result.get('results', [{}])[0].get('generated_text', '')] for a dict,
    [str(result)] for anything else. *)
Definition extract_text (result : gen_result) : M trace pyval :=
  match result with
  | GDict d =>
      let* results := lift_outcome (get_method (VDict d) "results" (VList [VDict ∅])) in
      let* first := lift_outcome (subscript0 results) in
      lift_outcome (get_method first "generated_text" (VStr ""))
  | GOther rendering => ret (VStr rendering)
  end.

(** [for chunk in ...: if chunk: yield chunk], on the chunks the stream
    produces before it ends. *)
Fixpoint yield_chunks (cs : list pyval) : M trace unit :=
  match cs with
  | [] => ret tt
  | chunk :: cs' =>
      let* _ := (if truthy chunk then emit (Yield chunk) else ret tt) in
      yield_chunks cs'
  end.

(** [loop.run_in_executor(None, f)] hands [f] to a worker and gives back
    what can be awaited; [await] gives the result of [f], or raises what
    [f] raised. *)
Definition awaitable (A : Type) : Type := unit → M trace A.
Definition run_in_executor {A} (f : unit → M trace A) : awaitable A := f.
Definition await {A} (a : awaitable A) : M trace A := a tt.

Section Methods.

Variable sdk : SDK.

(** [WatsonXClient.__init__] *)
Definition init (api_key project_id url : pyval) : M trace t :=
  let* _ :=
    try_except
      (let* _ := emit Import_sdk in check (import_sdk sdk))
      is_ImportError
      (fun _ => raise (Exc ImportError
         "ibm-watsonx-ai package is required. Install it with: pip install ibm-watsonx-ai")) in
  let creds := {| cred_api_key := api_key; cred_url := url |} in
  let* _ := emit (New_Credentials creds) in
  let* _ := check (Credentials_init sdk creds) in
  let* _ := emit (New_APIClient creds) in
  let* _ := check (APIClient_init sdk creds) in
  let api := {| api_credentials := creds; default_project := None |} in
  let* _ := emit (Set_default_project project_id) in
  let* _ := check (set_default_project sdk api project_id) in
  ret {| api_key := api_key; project_id := project_id; url := url;
         credentials := creds;
         client := {| api_credentials := creds;
                      default_project := Some project_id |} |}.

Variable self : t.

(** [parameters = self._TextGenParameters( **gen_params ) if gen_params else None] *)
Definition make_parameters (gen_params : pydict) : M trace (option TextGenParameters) :=
  if truthy (VDict gen_params) then
    let* _ := emit (New_TextGenParameters gen_params) in
    let* _ := check (TextGenParameters_init sdk gen_params) in
    ret (Some {| tgp_kwargs := gen_params |})
  else ret None.

(** [self._ModelInference(model_id=model, credentials=self.credentials,
    project_id=self.project_id, params=parameters)] *)
Definition make_model_inference (model : string)
    (parameters : option TextGenParameters) : M trace ModelInference :=
  let mi := {| model_id := model; mi_credentials := credentials self;
               mi_project_id := project_id self; params := parameters |} in
  let* _ := emit (New_ModelInference mi) in
  let* _ := check (ModelInference_init sdk mi) in
  ret mi.

(** [model_inference.generate(prompt=prompt)] *)
Definition call_generate (mi : ModelInference) (prompt : string) : M trace gen_result :=
  let* _ := emit (Call_generate mi prompt) in
  lift_outcome (generate sdk mi prompt).

(** The sampling parameters of [generate_completion], lines 107-116. *)
Definition completion_gen_params (kwargs : pydict) : M trace pydict :=
  let gen_params := (∅ : pydict) in
  let* gen_params := forward_param kwargs "max_tokens" "max_new_tokens" gen_params in
  let* gen_params := forward_param kwargs "temperature" "temperature" gen_params in
  let* gen_params := forward_param kwargs "top_p" "top_p" gen_params in
  let* gen_params := forward_param kwargs "top_k" "top_k" gen_params in
  ret gen_params.

(** The [try] block of [generate_completion]. *)
Definition generate_completion_body (model prompt : string)
    (images : option (list pyval)) (kwargs : pydict) : M trace pydict :=
  let* gen_params := completion_gen_params kwargs in
  let* parameters := make_parameters gen_params in
  let* model_inference := make_model_inference model parameters in
  let* result :=
    (if truthy_images images then
       let* _ := print "Warning: Image support in Watson X may vary by model" in
       call_generate model_inference prompt
     else call_generate model_inference prompt) in
  let* generated_text := extract_text result in
  ret ({[ "response" := generated_text;
          "model" := VStr model;
          "done" := VBool true ]} : pydict).

Definition generate_completion (model prompt : string) (format : string)
    (images : option (list pyval)) (enable_thinking : option bool)
    (kwargs : pydict) : M trace pydict :=
  try_except
    (generate_completion_body model prompt images kwargs)
    is_Exception
    (fun e =>
       let* _ := print ("Error generating completion: " +:+ exc_str e) in
       ret ({[ "response" := VStr ""; "error" := VStr (exc_str e) ]} : pydict)).

Definition generate_completion_async (model prompt : string) (format : string)
    (images : option (list pyval)) (enable_thinking : option bool)
    (timeout : Z) (kwargs : pydict) : M trace pydict :=
  await (run_in_executor (fun _ =>
    generate_completion model prompt format images enable_thinking kwargs)).

(** The [try] block of [generate_embedding]. *)
Definition generate_embedding_body (model text : string) : M trace (list pyval) :=
  let* _ := emit Import_Embeddings in
  let* _ := check (import_Embeddings sdk) in
  let embedding_model :=
    {| emb_model_id := model; emb_credentials := credentials self;
       emb_project_id := project_id self |} in
  let* _ := emit (New_Embeddings embedding_model) in
  let* _ := check (Embeddings_init sdk embedding_model) in
  let* _ := emit (Call_embed_query embedding_model text) in
  let* result := lift_outcome (embed_query sdk embedding_model text) in
  ret (match result with VList l => l | _ => [] end).

Definition generate_embedding (model text : string) : M trace (list pyval) :=
  try_except
    (generate_embedding_body model text)
    is_Exception
    (fun e =>
       let* _ := print ("Error generating embedding: " +:+ exc_str e) in
       ret []).

(** The sampling parameters of [stream_completion], lines 192-196. *)
Definition stream_gen_params (kwargs : pydict) : M trace pydict :=
  let gen_params := (∅ : pydict) in
  let* gen_params := forward_param kwargs "max_tokens" "max_new_tokens" gen_params in
  let* gen_params := forward_param kwargs "temperature" "temperature" gen_params in
  ret gen_params.

(** The inner [try] block of [stream_completion]: the loop over
    [model_inference.generate_text_stream(prompt=prompt)]. *)
Definition stream_loop (mi : ModelInference) (prompt : string) : M trace unit :=
  let* _ := emit (Call_generate_text_stream mi prompt) in
  let stream := generate_text_stream sdk mi prompt in
  let* _ := yield_chunks (chunks stream) in
  check (ending stream).

(** The [except AttributeError] block of [stream_completion]: one blocking
    call, yielded whole. *)
Definition stream_fallback (mi : ModelInference) (prompt : string) : M trace unit :=
  let* result := call_generate mi prompt in
  let* generated_text := extract_text result in
  emit (Yield generated_text).

(** The outer [try] block of [stream_completion]. *)
Definition stream_completion_body (model prompt : string) (kwargs : pydict) : M trace unit :=
  let* gen_params := stream_gen_params kwargs in
  let* parameters := make_parameters gen_params in
  let* model_inference := make_model_inference model parameters in
  try_except
    (stream_loop model_inference prompt)
    is_AttributeError
    (fun _ => stream_fallback model_inference prompt).

(** The generator, run until it is exhausted: the chunks it yields are the
    [Yield] events of the trace. *)
Definition stream_completion (model prompt : string)
    (images : option (list pyval)) (enable_thinking : option bool)
    (kwargs : pydict) : M trace unit :=
  try_except
    (stream_completion_body model prompt kwargs)
    is_Exception
    (fun e =>
       let* _ := print ("Error in stream_completion: " +:+ exc_str e) in
       emit (Yield (VStr ""))).

End Methods.

(** *** The same, said without the monad

    These are what the statements below are stated with: which sampling
    parameters reach the SDK, which objects the SDK is asked for, and when a
    call of the SDK counts as failed. *)

(** The sampling parameters [generate_completion] reads, each with the name
    the SDK knows it by. *)
Definition sampling_parameters : list (string * string) :=
  [("max_tokens", "max_new_tokens"); ("temperature", "temperature");
   ("top_p", "top_p"); ("top_k", "top_k")].

(** A keyword argument that passes an [if kwargs.get(name):]. *)
Definition forwarded (kwargs : pydict) (name : string) : option pyval :=
  match kwargs !! name with
  | Some v => if truthy v then Some v else None
  | None => None
  end.

Definition put (target : string) (o : option pyval) (gen_params : pydict) : pydict :=
  match o with
  | Some v => <[target := v]> gen_params
  | None => gen_params
  end.

Definition completion_params (kwargs : pydict) : pydict :=
  put "top_k" (forwarded kwargs "top_k")
    (put "top_p" (forwarded kwargs "top_p")
      (put "temperature" (forwarded kwargs "temperature")
        (put "max_new_tokens" (forwarded kwargs "max_tokens") ∅))).

Definition stream_params (kwargs : pydict) : pydict :=
  put "temperature" (forwarded kwargs "temperature")
    (put "max_new_tokens" (forwarded kwargs "max_tokens") ∅).

Definition parameters_of (gen_params : pydict) : option TextGenParameters :=
  if truthy (VDict gen_params) then Some {| tgp_kwargs := gen_params |} else None.

Definition model_inference_of (self : t) (model : string) (gen_params : pydict) : ModelInference :=
  {| model_id := model; mi_credentials := credentials self;
     mi_project_id := project_id self; params := parameters_of gen_params |}.

Definition embeddings_of (self : t) (model : string) : Embeddings :=
  {| emb_model_id := model; emb_credentials := credentials self;
     emb_project_id := project_id self |}.

(** Building the two SDK objects of a generation call went through. *)
Definition parameters_accepted (sdk : SDK) (gen_params : pydict) : Prop :=
  truthy (VDict gen_params) = true → TextGenParameters_init sdk gen_params = None.

Definition objects_built (sdk : SDK) (self : t) (model : string) (gen_params : pydict) : Prop :=
  parameters_accepted sdk gen_params ∧
  ModelInference_init sdk (model_inference_of self model gen_params) = None.

(** A call of the SDK made by [generate_completion] raises [e]: building
    the parameters, building the model handle, or the generation itself,
    whichever is first to fail. *)
Inductive backend_failure (sdk : SDK) (self : t) (model prompt : string)
    (kwargs : pydict) (e : exc) : Prop :=
  | parameters_refused :
      truthy (VDict (completion_params kwargs)) = true →
      TextGenParameters_init sdk (completion_params kwargs) = Some e →
      backend_failure sdk self model prompt kwargs e
  | model_inference_refused :
      parameters_accepted sdk (completion_params kwargs) →
      ModelInference_init sdk (model_inference_of self model (completion_params kwargs)) = Some e →
      backend_failure sdk self model prompt kwargs e
  | generate_raised :
      objects_built sdk self model (completion_params kwargs) →
      generate sdk (model_inference_of self model (completion_params kwargs)) prompt = Raise e →
      backend_failure sdk self model prompt kwargs e.

(** A step of [generate_embedding] raises [e]: the import of the embedding
    class (a backend without embedding support), building the embedding
    model, or the query. *)
Inductive embedding_failure (sdk : SDK) (self : t) (model text : string)
    (e : exc) : Prop :=
  | embeddings_missing :
      import_Embeddings sdk = Some e →
      embedding_failure sdk self model text e
  | embeddings_refused :
      import_Embeddings sdk = None →
      Embeddings_init sdk (embeddings_of self model) = Some e →
      embedding_failure sdk self model text e
  | embed_query_raised :
      import_Embeddings sdk = None →
      Embeddings_init sdk (embeddings_of self model) = None →
      embed_query sdk (embeddings_of self model) text = Raise e →
      embedding_failure sdk self model text e.

(** The chunks of a stream that pass the [if chunk:] of the loop. *)
Definition truthy_chunks (cs : list pyval) : list pyval := List.filter truthy cs.

(** The chunk the [except AttributeError] block yields, or the empty chunk
    of the outer handler when the blocking call or the reading of its result
    fails. *)
Definition fallback_chunk (sdk : SDK) (mi : ModelInference) (prompt : string) : pyval :=
  match generate sdk mi prompt with
  | Ok result =>
      match fst (extract_text result []) with
      | Ok text => text
      | Raise _ => VStr ""
      end
  | Raise _ => VStr ""
  end.

(** The two shapes of dict [generate_completion] returns. *)
Definition success_result (text : pyval) (model : string) : pydict :=
  {[ "response" := text; "model" := VStr model; "done" := VBool true ]}.

Definition failure_result (e : exc) : pydict :=
  {[ "response" := VStr ""; "error" := VStr (exc_str e) ]}.

End WatsonXClient.

(** ** rag_system/factory.py *)

Module Factory.

(** The dict objects of the pipeline configuration table live in a heap;
    the table binds a mode name to a reference.  Two names may be bound to
    one object, and a component that is handed a configuration is handed
    the reference. *)
Abbreviation loc := nat.

Record state : Type :=
  { heap : gmap loc pydict; out : trace }.

Definition set_out (tr : trace) (st : state) : state :=
  {| heap := heap st; out := tr |}.

Definition set_heap (h : gmap loc pydict) (st : state) : state :=
  {| heap := h; out := out st |}.

(** The module-level names [factory.py] imports from [rag_system.main]. *)
Record config : Type :=
  { PIPELINE_CONFIGS : gmap string loc;
    OLLAMA_CONFIG : pydict;
    LLM_BACKEND : string;
    WATSONX_CONFIG : pydict }.

Record OllamaClient : Type :=
  { host : pyval }.

Inductive llm_client : Type :=
  | Watsonx (c : WatsonXClient.t)
  | Ollama (c : OllamaClient).

(** The two components, as what their constructors are given. *)
Record Agent : Type :=
  { pipeline_configs : loc;
    agent_llm_client : llm_client;
    ollama_config : pydict }.

Record IndexingPipeline : Type :=
  { ip_config : loc;
    ip_llm_client : llm_client;
    ip_llm_config : pydict }.

(** [str.lower] on ASCII letters; other characters are left as they are
    (no character outside ASCII lowers to a letter of ["watsonx"]). *)
Definition lower_ascii (c : ascii) : ascii :=
  let n := N_of_ascii c in
  if ((65 <=? n) && (n <=? 90))%N then ascii_of_N (n + 32) else c.

Fixpoint lower (s : string) : string :=
  match s with
  | EmptyString => EmptyString
  | String c s' => String (lower_ascii c) (lower s')
  end.

Definition default_storage : pyval :=
  VDict {[ "db_path" := VStr "lancedb";
           "text_table_name" := VStr "text_pages_default";
           "image_table_name" := VStr "image_pages" ]}.

Definition incomplete_message : string :=
  "Watson X configuration incomplete. Please set WATSONX_API_KEY and WATSONX_PROJECT_ID environment variables.".

(** [needle in message] *)
Definition mentions (needle message : string) : bool :=
  match String.index 0 needle message with
  | Some _ => true
  | None => false
  end.

Definition log (e : event) : M state unit := zoom out set_out (emit e).

(** The dict a reference denotes.  A reference with no object cannot arise
    in Python; the model raises there, so that a normal return always comes
    from a state where the table's references have their objects. *)
Definition deref (l : loc) : M state pydict :=
  fun st => match heap st !! l with
            | Some d => (Ok d, st)
            | None => (Raise (Exc SystemError "dangling reference"), st)
            end.

(** [config[k] = v] on the object behind [l] *)
Definition setitem (l : loc) (k : string) (v : pyval) : M state unit :=
  let* d := deref l in
  fun st => (Ok tt, set_heap (<[l := <[k := v]> d]> (heap st)) st).

(** [PIPELINE_CONFIGS[k]] *)
Definition table_getitem (table : gmap string loc) (k : string) : outcome loc :=
  match table !! k with
  | Some l => Ok l
  | None => Raise (Exc KeyError ("'" +:+ k +:+ "'"))
  end.

(** [PIPELINE_CONFIGS.get(mode, PIPELINE_CONFIGS['default'])]: the default
    is an argument, so it is looked up whether or not [mode] is bound. *)
Definition resolve (table : gmap string loc) (mode : string) : outcome loc :=
  match table_getitem table "default" with
  | Ok dflt => Ok (match table !! mode with Some l => l | None => dflt end)
  | Raise e => Raise e
  end.

Section Factory.

Variable sdk : SDK.
Variable cfg : config.

(** [Agent(...)], lines 43-47: the constructor is handed the three
    arguments and may raise.  [get_agent] calls it after it has completed
    the configuration, so a constructor that raises leaves the table as the
    injection made it. *)
Variable Agent_init : Agent → option exc.

(** Lines 15-32 of [get_agent], and the same lines 61-78 of
    [get_indexing_pipeline]: the client and the configuration of the
    selected backend. *)
Definition make_llm_client : M state (llm_client * pydict) :=
  if String.eqb (lower (LLM_BACKEND cfg)) "watsonx" then
    let* api_key := lift_outcome (getitem (WATSONX_CONFIG cfg) "api_key") in
    let* incomplete :=
      (if negb (truthy api_key) then ret true
       else let* project_id := lift_outcome (getitem (WATSONX_CONFIG cfg) "project_id") in
            ret (negb (truthy project_id))) in
    if (incomplete : bool) then raise (Exc ValueError incomplete_message)
    else
      let* api_key := lift_outcome (getitem (WATSONX_CONFIG cfg) "api_key") in
      let* project_id := lift_outcome (getitem (WATSONX_CONFIG cfg) "project_id") in
      let* url := lift_outcome (getitem (WATSONX_CONFIG cfg) "url") in
      let* client := zoom out set_out (WatsonXClient.init sdk api_key project_id url) in
      ret (Watsonx client, WATSONX_CONFIG cfg)
  else
    let* host := lift_outcome (getitem (OLLAMA_CONFIG cfg) "host") in
    let* _ := log (New_OllamaClient host) in
    ret (Ollama {| host := host |}, OLLAMA_CONFIG cfg).

Definition get_agent (mode : string) : M state Agent :=
  let* _ := log Load_dotenv in
  let* backend := make_llm_client in
  let* config := lift_outcome (resolve (PIPELINE_CONFIGS cfg) mode) in
  let* d := deref config in
  let* _ :=
    (if negb (bool_decide (is_Some (d !! "storage"))) then
       setitem config "storage" default_storage
     else ret tt) in
  let agent := {| pipeline_configs := config;
                  agent_llm_client := fst backend;
                  ollama_config := snd backend |} in
  let* _ := check (Agent_init agent) in
  ret agent.

Definition get_indexing_pipeline (mode : string) : M state IndexingPipeline :=
  let* _ := log Load_dotenv in
  let* backend := make_llm_client in
  let* config := lift_outcome (resolve (PIPELINE_CONFIGS cfg) mode) in
  ret {| ip_config := config;
         ip_llm_client := fst backend;
         ip_llm_config := snd backend |}.

(** [PIPELINE_CONFIGS[mode]] as a value, in a given state. *)
Definition table_entry (st : state) (mode : string) : option pydict :=
  match PIPELINE_CONFIGS cfg !! mode with
  | Some l => heap st !! l
  | None => None
  end.

End Factory.

End Factory.

(** ** Concrete backends and configurations *)

Module Fixtures.

Import WatsonXClient Factory.

Definition creds : Credentials :=
  {| cred_api_key := VStr "key"; cred_url := default_url |}.

Definition self : WatsonXClient.t :=
  {| api_key := VStr "key"; project_id := VStr "p1"; url := default_url;
     credentials := creds;
     client := {| api_credentials := creds; default_project := Some (VStr "p1") |} |}.

Definition connection_error : exc :=
  Exc (OtherException "ConnectionError") "connection refused".

Definition no_stream_error : exc :=
  Exc AttributeError "'ModelInference' object has no attribute 'generate_text_stream'".

Definition hello : gen_result :=
  GDict {[ "results" := VList [VDict {[ "generated_text" := VStr "Hello" ]}] ]}.

(** 0.5 and 0.25 *)
Definition vector : list pyval :=
  [VFloat (S754_finite false 1 (-1)); VFloat (S754_finite false 1 (-2))].

(** A backend where every call goes through. *)
Definition sdk_up : SDK :=
  {| import_sdk := None;
     Credentials_init := fun _ => None;
     APIClient_init := fun _ => None;
     set_default_project := fun _ _ => None;
     TextGenParameters_init := fun _ => None;
     ModelInference_init := fun _ => None;
     generate := fun _ _ => Ok hello;
     generate_text_stream := fun _ _ =>
       {| chunks := [VStr "Hel"; VStr ""; VStr "lo"]; ending := None |};
     import_Embeddings := None;
     Embeddings_init := fun _ => None;
     embed_query := fun _ _ => Ok (VList vector) |}.

(** A backend whose service cannot be reached: the generation call and the
    embedding query raise, and the stream breaks after its first chunk. *)
Definition sdk_down : SDK :=
  {| import_sdk := None;
     Credentials_init := fun _ => None;
     APIClient_init := fun _ => None;
     set_default_project := fun _ _ => None;
     TextGenParameters_init := fun _ => None;
     ModelInference_init := fun _ => None;
     generate := fun _ _ => Raise connection_error;
     generate_text_stream := fun _ _ =>
       {| chunks := [VStr "Hel"]; ending := Some connection_error |};
     import_Embeddings := None;
     Embeddings_init := fun _ => None;
     embed_query := fun _ _ => Raise connection_error |}.

(** A backend whose stream raises an [AttributeError] after its first
    chunk, the blocking call being fine. *)
Definition sdk_broken_stream : SDK :=
  {| import_sdk := None;
     Credentials_init := fun _ => None;
     APIClient_init := fun _ => None;
     set_default_project := fun _ _ => None;
     TextGenParameters_init := fun _ => None;
     ModelInference_init := fun _ => None;
     generate := fun _ _ => Ok hello;
     generate_text_stream := fun _ _ =>
       {| chunks := [VStr "Hel"]; ending := Some no_stream_error |};
     import_Embeddings := None;
     Embeddings_init := fun _ => None;
     embed_query := fun _ _ => Ok (VList vector) |}.

(** An SDK without the embedding class. *)
Definition no_embeddings_error : exc :=
  Exc ImportError "cannot import name 'Embeddings' from 'ibm_watsonx_ai.foundation_models'".

Definition sdk_no_embeddings : SDK :=
  {| import_sdk := None;
     Credentials_init := fun _ => None;
     APIClient_init := fun _ => None;
     set_default_project := fun _ _ => None;
     TextGenParameters_init := fun _ => None;
     ModelInference_init := fun _ => None;
     generate := fun _ _ => Ok hello;
     generate_text_stream := fun _ _ =>
       {| chunks := [VStr "Hel"; VStr ""; VStr "lo"]; ending := None |};
     import_Embeddings := Some no_embeddings_error;
     Embeddings_init := fun _ => None;
     embed_query := fun _ _ => Ok (VList vector) |}.

(** The local backend, and a table whose only entry has no storage. *)
Definition local_config : config :=
  {| PIPELINE_CONFIGS := {[ "default" := 0 ]};
     OLLAMA_CONFIG := {[ "host" := VStr "http://localhost:11434" ]};
     LLM_BACKEND := "ollama";
     WATSONX_CONFIG := ∅ |}.

Definition retrieval_only : pydict :=
  {[ "retrieval" := VDict {[ "retriever" := VStr "multivector" ]} ]}.

Definition start : state :=
  {| heap := {[ 0 := retrieval_only ]}; out := [] |}.

(** The cloud backend with an empty credential. *)
Definition cloud_config : config :=
  {| PIPELINE_CONFIGS := {[ "default" := 0 ]};
     OLLAMA_CONFIG := {[ "host" := VStr "http://localhost:11434" ]};
     LLM_BACKEND := "WatsonX";
     WATSONX_CONFIG := {[ "api_key" := VStr ""; "project_id" := VStr "p1";
                          "url" := default_url ]} |}.

(** An [Agent] constructor that accepts what it is handed, and one that
    cannot open its database. *)
Definition agent_built : Agent → option exc := fun _ => None.

Definition database_error : exc :=
  Exc (OtherException "RuntimeError") "could not open the database".

Definition agent_refused : Agent → option exc := fun _ => Some database_error.

End Fixtures.

(** ** The runs of the adapter, said without the monad *)

Module Runs.

Import WatsonXClient.

Definition completion_error_line (e : exc) : event :=
  Print ("Error generating completion: " +:+ exc_str e).

Definition image_warning : event :=
  Print "Warning: Image support in Watson X may vary by model".

(** Building the parameters and the model handle: what comes out, and the
    SDK constructors that were called. *)
Definition setup (sdk : SDK) (self : t) (model : string) (gen_params : pydict)
    : outcome ModelInference * trace :=
  let mi := model_inference_of self model gen_params in
  if truthy (VDict gen_params) then
    match TextGenParameters_init sdk gen_params with
    | Some e => (Raise e, [New_TextGenParameters gen_params])
    | None =>
        (match ModelInference_init sdk mi with None => Ok mi | Some e => Raise e end,
         [New_TextGenParameters gen_params; New_ModelInference mi])
    end
  else
    (match ModelInference_init sdk mi with None => Ok mi | Some e => Raise e end,
     [New_ModelInference mi]).

(** The dict [generate_completion] returns and the events it adds. *)
Definition completion (sdk : SDK) (self : t) (model prompt : string)
    (images : option (list pyval)) (kwargs : pydict) : pydict * trace :=
  match setup sdk self model (completion_params kwargs) with
  | (Raise e, events) => (failure_result e, events ++ [completion_error_line e])
  | (Ok mi, events) =>
      let events :=
        events ++ (if truthy_images images then [image_warning] else [])
               ++ [Call_generate mi prompt] in
      match generate sdk mi prompt with
      | Raise e => (failure_result e, events ++ [completion_error_line e])
      | Ok result =>
          match fst (extract_text result []) with
          | Ok text => (success_result text model, events)
          | Raise e => (failure_result e, events ++ [completion_error_line e])
          end
      end
  end.

(** The number of generation calls in a trace. *)
Definition generate_calls (tr : trace) : nat :=
  length (List.filter (fun ev => match ev with Call_generate _ _ => true | _ => false end) tr).

(** The lines printed in a trace. *)
Definition printed (tr : trace) : list string :=
  omap (fun ev => match ev with Print line => Some line | _ => None end) tr.

Definition stream_error_line (e : exc) : event :=
  Print ("Error in stream_completion: " +:+ exc_str e).

(** The events [stream_completion] adds, the generator being run to its
    end. *)
Definition streaming (sdk : SDK) (self : t) (model prompt : string)
    (kwargs : pydict) : trace :=
  match setup sdk self model (stream_params kwargs) with
  | (Raise e, events) => events ++ [stream_error_line e; Yield (VStr "")]
  | (Ok mi, events) =>
      let stream := generate_text_stream sdk mi prompt in
      let events :=
        events ++ Call_generate_text_stream mi prompt
               :: map Yield (truthy_chunks (chunks stream)) in
      match ending stream with
      | None => events
      | Some e =>
          if is_AttributeError e then
            let events := events ++ [Call_generate mi prompt] in
            match generate sdk mi prompt with
            | Raise e' => events ++ [stream_error_line e'; Yield (VStr "")]
            | Ok result =>
                match fst (extract_text result []) with
                | Ok text => events ++ [Yield text]
                | Raise e' => events ++ [stream_error_line e'; Yield (VStr "")]
                end
            end
          else events ++ [stream_error_line e; Yield (VStr "")]
      end
  end.

(** The calls made to the SDK in a trace: everything but the printed lines. *)
Definition sdk_calls (tr : trace) : trace :=
  List.filter (fun ev => match ev with Print _ => false | _ => true end) tr.

(** The message of the [ImportError] that [__init__] raises. *)
Definition install_message : string :=
  "ibm-watsonx-ai package is required. Install it with: pip install ibm-watsonx-ai".


(** [s] is [pattern], a word of lower-case letters, up to the case of each
    letter. *)
Fixpoint same_letters (pattern s : string) : bool :=
  match pattern, s with
  | EmptyString, EmptyString => true
  | String p pattern', String c s' =>
      (Ascii.eqb c p || Ascii.eqb c (ascii_of_N (N_of_ascii p - 32)))
      && same_letters pattern' s'
  | _, _ => false
  end.

End Runs.

(** ** More backends and configurations *)

Module Cases.

Import WatsonXClient Factory Fixtures.

Definition with_generate (sdk : SDK)
    (g : ModelInference → string → outcome gen_result) : SDK :=
  {| import_sdk := import_sdk sdk;
     Credentials_init := Credentials_init sdk;
     APIClient_init := APIClient_init sdk;
     set_default_project := set_default_project sdk;
     TextGenParameters_init := TextGenParameters_init sdk;
     ModelInference_init := ModelInference_init sdk;
     generate := g;
     generate_text_stream := generate_text_stream sdk;
     import_Embeddings := import_Embeddings sdk;
     Embeddings_init := Embeddings_init sdk;
     embed_query := embed_query sdk |}.

(** The generation call answers with a dict that has no results. *)
Definition sdk_no_results : SDK :=
  with_generate sdk_up (fun _ _ => Ok (GDict ∅)).

(** The generation call answers with an empty list of results. *)
Definition sdk_empty_results : SDK :=
  with_generate sdk_up (fun _ _ => Ok (GDict {[ "results" := VList [] ]})).

(** The generation call answers with something that is not a dict. *)
Definition sdk_plain_text : SDK :=
  with_generate sdk_up (fun _ _ => Ok (GOther "Hello")).

(** An SDK whose model handle has no [generate_text_stream]. *)
Definition sdk_no_streaming : SDK :=
  {| import_sdk := None;
     Credentials_init := fun _ => None;
     APIClient_init := fun _ => None;
     set_default_project := fun _ _ => None;
     TextGenParameters_init := fun _ => None;
     ModelInference_init := fun _ => None;
     generate := fun _ _ => Ok hello;
     generate_text_stream := fun _ _ =>
       {| chunks := []; ending := Some no_stream_error |};
     import_Embeddings := None;
     Embeddings_init := fun _ => None;
     embed_query := fun _ _ => Ok (VList vector) |}.

Definition unknown_model_error : exc :=
  Exc (OtherException "WMLClientError") "Model 'ibm/unknown' is not supported".

(** An SDK that refuses the model. *)
Definition sdk_rejects_model : SDK :=
  {| import_sdk := None;
     Credentials_init := fun _ => None;
     APIClient_init := fun _ => None;
     set_default_project := fun _ _ => None;
     TextGenParameters_init := fun _ => None;
     ModelInference_init := fun _ => Some unknown_model_error;
     generate := fun _ _ => Ok hello;
     generate_text_stream := fun _ _ =>
       {| chunks := [VStr "Hel"; VStr ""; VStr "lo"]; ending := None |};
     import_Embeddings := None;
     Embeddings_init := fun _ => None;
     embed_query := fun _ _ => Ok (VList vector) |}.

(** An SDK whose embedding query returns a tuple. *)
Definition sdk_tuple_embedding : SDK :=
  {| import_sdk := None;
     Credentials_init := fun _ => None;
     APIClient_init := fun _ => None;
     set_default_project := fun _ _ => None;
     TextGenParameters_init := fun _ => None;
     ModelInference_init := fun _ => None;
     generate := fun _ _ => Ok hello;
     generate_text_stream := fun _ _ =>
       {| chunks := [VStr "Hel"; VStr ""; VStr "lo"]; ending := None |};
     import_Embeddings := None;
     Embeddings_init := fun _ => None;
     embed_query := fun _ _ => Ok (VObj "tuple" "(0.5, 0.25)") |}.

Definition not_installed_error : exc :=
  Exc ModuleNotFoundError "No module named 'ibm_watsonx_ai'".

(** The package is not installed. *)
Definition sdk_not_installed : SDK :=
  {| import_sdk := Some not_installed_error;
     Credentials_init := fun _ => None;
     APIClient_init := fun _ => None;
     set_default_project := fun _ _ => None;
     TextGenParameters_init := fun _ => None;
     ModelInference_init := fun _ => None;
     generate := fun _ _ => Ok hello;
     generate_text_stream := fun _ _ =>
       {| chunks := [VStr "Hel"; VStr ""; VStr "lo"]; ending := None |};
     import_Embeddings := None;
     Embeddings_init := fun _ => None;
     embed_query := fun _ _ => Ok (VList vector) |}.

Definition localhost : pyval := VStr "http://localhost:11434".

(** The cloud backend, fully configured. *)
Definition cloud_ready : config :=
  {| PIPELINE_CONFIGS := {[ "default" := 0 ]};
     OLLAMA_CONFIG := {[ "host" := localhost ]};
     LLM_BACKEND := "watsonx";
     WATSONX_CONFIG := {[ "api_key" := VStr "key"; "project_id" := VStr "p1";
                          "url" := default_url ]} |}.

(** The cloud backend with the project identifier unset. *)
Definition cloud_no_project : config :=
  {| PIPELINE_CONFIGS := {[ "default" := 0 ]};
     OLLAMA_CONFIG := {[ "host" := localhost ]};
     LLM_BACKEND := "watsonx";
     WATSONX_CONFIG := {[ "api_key" := VStr "key"; "project_id" := VNone;
                          "url" := default_url ]} |}.

(** The local backend with a table that has a ["fast"] entry and no
    ["default"] entry. *)
Definition no_default_config : config :=
  {| PIPELINE_CONFIGS := {[ "fast" := 0 ]};
     OLLAMA_CONFIG := {[ "host" := localhost ]};
     LLM_BACKEND := "ollama";
     WATSONX_CONFIG := ∅ |}.

Definition custom_storage : pydict :=
  {[ "storage" := VDict {[ "db_path" := VStr "/data/index" ]} ]}.

(** A heap whose one entry has its own storage. *)
Definition stored : state :=
  {| heap := {[ 0 := custom_storage ]}; out := [] |}.

(** What [get_agent] returns on [local_config] from [start]. *)
Definition local_agent : Agent :=
  {| pipeline_configs := 0;
     agent_llm_client := Ollama {| host := localhost |};
     ollama_config := OLLAMA_CONFIG local_config |}.

Definition after_get_agent : state :=
  {| heap := {[ 0 := <["storage" := default_storage]> retrieval_only ]};
     out := [Load_dotenv; New_OllamaClient localhost] |}.

End Cases.

(** ** Facts about the adapter *)

Module ClientFacts.

Import WatsonXClient.

Lemma bind_ok {S A B} (m : M S A) (k : A → M S B) s a s' :
  m s = (Ok a, s') → bind m k s = k a s'.
Proof. intros H. unfold bind. by rewrite H. Qed.

Lemma bind_raise {S A B} (m : M S A) (k : A → M S B) s e s' :
  m s = (Raise e, s') → bind m k s = (Raise e, s').
Proof. intros H. unfold bind. by rewrite H. Qed.

Lemma forwarded_truthy kwargs name v :
  forwarded kwargs name = Some v ↔ kwargs !! name = Some v ∧ truthy v = true.
Proof.
  unfold forwarded. destruct (kwargs !! name) as [w|].
  - destruct (truthy w) eqn:Hw; split.
    + intros [= ->]. done.
    + intros [[= ->] _]. done.
    + done.
    + intros [[= ->] Hv]. congruence.
  - split; [done|]. intros [? _]. done.
Qed.

Lemma forward_param_run kwargs name target gen_params tr :
  forward_param kwargs name target gen_params tr
  = (Ok (put target (forwarded kwargs name) gen_params), tr).
Proof.
  unfold forward_param, forwarded, dict_get, getitem, put.
  destruct (kwargs !! name) as [v|]; simpl; [|done].
  by destruct (truthy v).
Qed.

Lemma completion_gen_params_run kwargs tr :
  completion_gen_params kwargs tr = (Ok (completion_params kwargs), tr).
Proof.
  unfold completion_gen_params, completion_params.
  repeat (erewrite bind_ok; [|apply forward_param_run]).
  done.
Qed.

Lemma make_parameters_ok sdk gen_params tr :
  parameters_accepted sdk gen_params →
  make_parameters sdk gen_params tr
  = (Ok (parameters_of gen_params),
     tr ++ (if truthy (VDict gen_params) then [New_TextGenParameters gen_params] else [])).
Proof.
  unfold parameters_accepted, make_parameters, parameters_of.
  destruct (truthy (VDict gen_params)); intros Hok.
  - unfold bind, emit, check. rewrite Hok by done. done.
  - unfold ret. by rewrite app_nil_r.
Qed.

Lemma make_parameters_raise sdk gen_params tr e :
  truthy (VDict gen_params) = true →
  TextGenParameters_init sdk gen_params = Some e →
  make_parameters sdk gen_params tr = (Raise e, tr ++ [New_TextGenParameters gen_params]).
Proof.
  unfold make_parameters. intros -> Hinit.
  unfold bind, emit, check. by rewrite Hinit.
Qed.

Lemma make_model_inference_run sdk self model parameters tr :
  let mi := {| model_id := model; mi_credentials := credentials self;
               mi_project_id := project_id self; params := parameters |} in
  make_model_inference sdk self model parameters tr
  = (match ModelInference_init sdk mi with None => Ok mi | Some e => Raise e end,
     tr ++ [New_ModelInference mi]).
Proof.
  intros mi. unfold make_model_inference, bind, emit, check. fold mi.
  by destruct (ModelInference_init sdk mi).
Qed.

Lemma call_generate_run sdk mi prompt tr :
  call_generate sdk mi prompt tr
  = (generate sdk mi prompt, tr ++ [Call_generate mi prompt]).
Proof.
  unfold call_generate, bind, emit, lift_outcome.
  by destruct (generate sdk mi prompt).
Qed.

(** The [try] block of [generate_completion] raises what the SDK raised. *)
Lemma generate_completion_body_raises sdk self model prompt images kwargs tr e :
  backend_failure sdk self model prompt kwargs e →
  ∃ tr', generate_completion_body sdk self model prompt images kwargs tr = (Raise e, tr').
Proof.
  intros Hfail. unfold generate_completion_body.
  rewrite (bind_ok _ _ _ _ _ (completion_gen_params_run kwargs tr)).
  destruct Hfail as [Hgp Hinit | Hacc Hinit | [Hacc Hmi] Hgen].
  - eexists. erewrite bind_raise; [done|]. by apply make_parameters_raise.
  - eexists. erewrite bind_ok; [|by apply make_parameters_ok].
    erewrite bind_raise; [done|].
    rewrite make_model_inference_run.
    unfold model_inference_of in Hinit. by rewrite Hinit.
  - erewrite bind_ok; [|by apply make_parameters_ok].
    unfold model_inference_of in Hmi, Hgen.
    erewrite bind_ok; [|rewrite make_model_inference_run; by rewrite Hmi].
    destruct (truthy_images images); eexists.
    + erewrite bind_raise; [done|].
      erewrite bind_ok; [|reflexivity]. rewrite call_generate_run. by rewrite Hgen.
    + erewrite bind_raise; [done|].
      rewrite call_generate_run. by rewrite Hgen.
Qed.

(** What [generate_completion] makes of its [try] block. *)
Lemma generate_completion_run sdk self model prompt format images enable_thinking kwargs tr :
  generate_completion sdk self model prompt format images enable_thinking kwargs tr
  = match generate_completion_body sdk self model prompt images kwargs tr with
    | (Ok d, tr') => (Ok d, tr')
    | (Raise e, tr') =>
        (Ok (failure_result e),
         tr' ++ [Print ("Error generating completion: " +:+ exc_str e)])
    end.
Proof.
  unfold generate_completion, try_except.
  destruct (generate_completion_body _ _ _ _ _ _ _) as [[d|e] tr']; done.
Qed.

(** C1: whenever a call of the SDK inside [generate_completion] raises an
    exception [e], [generate_completion] does not raise: it returns the dict
    [{'response': '', 'error': str(e)}], whose text is empty and whose error
    is the description of [e]. *)
Theorem generate_completion_backend_failure
    sdk self model prompt format images enable_thinking kwargs tr e :
  backend_failure sdk self model prompt kwargs e →
  fst (generate_completion sdk self model prompt format images enable_thinking kwargs tr)
  = Ok ({[ "response" := VStr ""; "error" := VStr (exc_str e) ]} : pydict).
Proof.
  intros Hfail.
  destruct (generate_completion_body_raises sdk self model prompt images kwargs tr e Hfail)
    as [tr' Hbody].
  rewrite generate_completion_run, Hbody. done.
Qed.

Lemma generate_completion_backend_failure_witness :
  fst (generate_completion Fixtures.sdk_down Fixtures.self
         "ibm/granite-13b-chat-v2" "What is AI?" "" None None ∅ [])
  = Ok ({[ "response" := VStr ""; "error" := VStr "connection refused" ]} : pydict).
Proof.
  apply (generate_completion_backend_failure Fixtures.sdk_down Fixtures.self
           "ibm/granite-13b-chat-v2" "What is AI?" "" None None ∅ []
           Fixtures.connection_error).
  apply generate_raised.
  - split; [intros _|]; reflexivity.
  - reflexivity.
Defined.

Ltac run_monad :=
  unfold bind, emit, check, ret, raise, lift_outcome, print; simpl.

(** Case analysis on every answer of the SDK a run depends on. *)
Ltac case_sdk :=
  repeat match goal with
    | |- context [match ?o with None => _ | Some _ => _ end] => destruct o eqn:?
    | |- context [match ?o with Ok _ => _ | Raise _ => _ end] => destruct o eqn:?
    end.

Lemma bind_inv_ok {S A B} (m : M S A) (k : A → M S B) s b s' :
  bind m k s = (Ok b, s') → ∃ a s1, m s = (Ok a, s1) ∧ k a s1 = (Ok b, s').
Proof.
  unfold bind. destruct (m s) as [[a|e] s1]; [eauto|done].
Qed.

(** A normal end of the [try] block returns the three-key dict. *)
Lemma generate_completion_body_ok sdk self model prompt images kwargs tr d tr' :
  generate_completion_body sdk self model prompt images kwargs tr = (Ok d, tr') →
  ∃ text, d = success_result text model.
Proof.
  unfold generate_completion_body. intros H.
  repeat (apply bind_inv_ok in H as (? & ? & _ & H)).
  unfold ret in H. injection H as <- _. eauto.
Qed.

(** C6: [generate_completion_async] returns what [generate_completion]
    returns on the same inputs, whatever the timeout: the same outcome, hence
    the same dict with the same fields, after the same calls to the SDK. *)
Theorem generate_completion_async_same_result
    sdk self model prompt format images enable_thinking timeout kwargs tr :
  generate_completion_async sdk self model prompt format images enable_thinking
    timeout kwargs tr
  = generate_completion sdk self model prompt format images enable_thinking kwargs tr.
Proof.
  unfold generate_completion_async, await, run_in_executor. reflexivity.
Qed.

(** C10: the result of [generate_completion_async] does not depend on the
    timeout: two calls that differ only in it return the same outcome and
    make the same calls to the SDK. *)
Theorem generate_completion_async_ignores_timeout
    sdk self model prompt format images enable_thinking timeout1 timeout2 kwargs tr :
  generate_completion_async sdk self model prompt format images enable_thinking
    timeout1 kwargs tr
  = generate_completion_async sdk self model prompt format images enable_thinking
      timeout2 kwargs tr.
Proof.
  unfold generate_completion_async. reflexivity.
Qed.

(** C7, as stated, fails: when the generation call raises, the dict that
    comes back has the text and the error, and neither ['model'] nor
    ['done']. *)
Lemma generate_completion_failure_lacks_model_and_done :
  match fst (generate_completion Fixtures.sdk_down Fixtures.self
               "ibm/granite-13b-chat-v2" "What is AI?" "" None None ∅ []) with
  | Ok d => d !! "response" = Some (VStr "")
            ∧ d !! "error" = Some (VStr "connection refused")
            ∧ d !! "model" = None
            ∧ d !! "done" = None
  | Raise _ => False
  end.
Proof. vm_compute. done. Qed.

(** C7, amended: every call of [generate_completion] returns a dict with the
    generated text.  When the [try] block completes, the dict also has the
    echoed model identifier and the completion flag [True], and no error;
    when it fails with [e], the text is empty, the error is [str(e)], and
    the dict has neither the model identifier nor the completion flag. *)
Theorem generate_completion_result_fields
    sdk self model prompt format images enable_thinking kwargs tr :
  ∃ d : pydict,
    fst (generate_completion sdk self model prompt format images enable_thinking kwargs tr)
    = Ok d
    ∧ match fst (generate_completion_body sdk self model prompt images kwargs tr) with
      | Ok _ =>
          is_Some (d !! "response")
          ∧ d !! "model" = Some (VStr model)
          ∧ d !! "done" = Some (VBool true)
          ∧ d !! "error" = None
      | Raise e =>
          d !! "response" = Some (VStr "")
          ∧ d !! "error" = Some (VStr (exc_str e))
          ∧ d !! "model" = None
          ∧ d !! "done" = None
      end.
Proof.
  rewrite generate_completion_run.
  destruct (generate_completion_body _ _ _ _ _ _ _) as [[d|e] tr'] eqn:Hbody; simpl.
  - exists d. split; [done|].
    apply generate_completion_body_ok in Hbody as [text ->].
    unfold success_result. by simplify_map_eq.
  - exists (failure_result e). split; [done|].
    unfold failure_result. by simplify_map_eq.
Qed.

Lemma completion_params_lookup kwargs name target :
  (name, target) ∈ sampling_parameters →
  completion_params kwargs !! target = forwarded kwargs name.
Proof.
  unfold sampling_parameters, completion_params, put. intros Hin.
  repeat (apply elem_of_cons in Hin as [[= -> ->] | Hin]);
    [..| by apply elem_of_nil in Hin];
    destruct (forwarded kwargs "top_k"), (forwarded kwargs "top_p"),
      (forwarded kwargs "temperature"), (forwarded kwargs "max_tokens");
    by simplify_map_eq.
Qed.

Lemma completion_params_other kwargs k :
  k ∉ sampling_parameters.*2 → completion_params kwargs !! k = None.
Proof.
  unfold sampling_parameters, completion_params, put. simpl. intros Hk.
  repeat (apply not_elem_of_cons in Hk as [? Hk]).
  destruct (forwarded kwargs "top_k"), (forwarded kwargs "top_p"),
      (forwarded kwargs "temperature"), (forwarded kwargs "max_tokens");
    by simplify_map_eq.
Qed.

(** Taking the text out of a result prints and calls nothing. *)
Lemma extract_text_trace result tr : snd (extract_text result tr) = tr.
Proof.
  destruct result as [d|r]; [|done].
  unfold extract_text, bind, lift_outcome. simpl.
  repeat case_match; simplify_eq/=; done.
Qed.

Lemma generate_completion_body_trace sdk self model prompt images kwargs tr :
  let mi := model_inference_of self model (completion_params kwargs) in
  ∃ new, snd (generate_completion_body sdk self model prompt images kwargs tr) = tr ++ new
    ∧ (∀ mi' p, Call_generate mi' p ∈ new → mi' = mi ∧ p = prompt)
    ∧ (objects_built sdk self model (completion_params kwargs) →
       Call_generate mi prompt ∈ new).
Proof.
  intros mi. unfold generate_completion_body.
  rewrite (bind_ok _ _ _ _ _ (completion_gen_params_run kwargs tr)).
  unfold objects_built, parameters_accepted, mi, model_inference_of, parameters_of.
  set (gp := completion_params kwargs).
  unfold make_parameters, make_model_inference, call_generate.
  destruct (truthy (VDict gp)) eqn:Hgp; destruct (truthy_images images);
    run_monad.
  all: repeat match goal with
       | |- context [match ?o with None => _ | Some _ => _ end] => destruct o eqn:?
       | |- context [match ?o with Ok _ => _ | Raise _ => _ end] => destruct o eqn:?
       | |- context [extract_text ?r ?t] =>
           let H := fresh in
           pose proof (extract_text_trace r t) as H;
           destruct (extract_text r t) as [[?|?] ?]; simpl in H; subst
       end; simpl.
  all: rewrite <- ?app_assoc; eexists; (split; [reflexivity|]).
  all: split; [intros mi' p Hin; set_unfold in Hin; naive_solver|].
  all: try (intros [Hacc Hmi]; set_unfold; naive_solver).
Qed.

Lemma call_generate_before_print mi p (new : trace) line :
  Call_generate mi p ∈ new ++ [Print line] → Call_generate mi p ∈ new.
Proof.
  rewrite elem_of_app, list_elem_of_singleton. intros [Hin | Heq]; [done|].
  discriminate Heq.
Qed.

(** C8, as stated, fails: with [temperature=0] and [max_tokens=256] the
    parameters of the generation call hold [max_new_tokens] alone; the zero
    temperature is not forwarded. *)
Lemma generate_completion_drops_zero_temperature :
  let gen_params : pydict := {[ "max_new_tokens" := VInt 256 ]} in
  let mi := model_inference_of Fixtures.self "ibm/granite-13b-chat-v2" gen_params in
  snd (generate_completion Fixtures.sdk_up Fixtures.self
         "ibm/granite-13b-chat-v2" "What is AI?" "" None None
         {[ "temperature" := VInt 0; "max_tokens" := VInt 256 ]} [])
  = [New_TextGenParameters gen_params; New_ModelInference mi;
     Call_generate mi "What is AI?"]
  ∧ params mi = Some {| tgp_kwargs := gen_params |}
  ∧ gen_params !! "temperature" = None.
Proof. vm_compute. done. Qed.

(** C8, amended: [generate_completion] forwards a sampling parameter
    ([max_tokens] as [max_new_tokens], [temperature], [top_p], [top_k])
    verbatim when it is supplied with a truthy value, and does not forward
    one that is absent or falsy ([None], [0], [0.0]): the keyword arguments
    [gen_params] handed to the SDK hold exactly the forwarded ones, every
    generation call the method makes is on the model handle built with them
    ([None] for parameters when there are none), and the call is made
    whenever the SDK builds the two objects. *)
Theorem generate_completion_forwards_truthy_parameters
    sdk self model prompt format images enable_thinking kwargs tr :
  ∃ (gen_params : pydict) (new : trace),
    snd (generate_completion sdk self model prompt format images enable_thinking kwargs tr)
    = tr ++ new
    ∧ (∀ name target, (name, target) ∈ sampling_parameters →
         gen_params !! target
         = match kwargs !! name with
           | Some v => if truthy v then Some v else None
           | None => None
           end)
    ∧ (∀ k, k ∉ sampling_parameters.*2 → gen_params !! k = None)
    ∧ (∀ mi p, Call_generate mi p ∈ new →
         p = prompt ∧ model_id mi = model
         ∧ params mi = if truthy (VDict gen_params)
                       then Some {| tgp_kwargs := gen_params |} else None)
    ∧ (objects_built sdk self model gen_params →
       Call_generate (model_inference_of self model gen_params) prompt ∈ new).
Proof.
  exists (completion_params kwargs).
  destruct (generate_completion_body_trace sdk self model prompt images kwargs tr)
    as (new & Htr & Hcalls & Hcalled).
  assert (∀ (extra : trace) mi p,
            (Call_generate mi p ∈ new ++ extra → Call_generate mi p ∈ new) →
            Call_generate mi p ∈ new ++ extra →
            p = prompt ∧ model_id mi = model
            ∧ params mi = parameters_of (completion_params kwargs)) as Hparams.
  { intros extra mi p Hnew Hin. by apply Hnew, Hcalls in Hin as [-> ->]. }
  rewrite generate_completion_run.
  destruct (generate_completion_body _ _ _ _ _ _ _) as [[d|e] tr'] eqn:Hbody;
    simpl in Htr; subst tr'.
  - exists new. split; [done|].
    split; [intros name target Hin; by apply completion_params_lookup|].
    split; [by apply completion_params_other|].
    split; [|done].
    intros mi p Hin. apply (Hparams [] mi p); by rewrite app_nil_r.
  - exists (new ++ [Print ("Error generating completion: " +:+ exc_str e)]).
    split; [by rewrite <- app_assoc|].
    split; [intros name target Hin; by apply completion_params_lookup|].
    split; [by apply completion_params_other|].
    split.
    + intros mi p Hin. eapply Hparams; [|exact Hin].
      apply call_generate_before_print.
    + intros Hbuilt. apply elem_of_app. left. by apply Hcalled.
Qed.

Lemma generate_completion_forwards_truthy_parameters_witness :
  ∃ (gen_params : pydict) (new : trace),
    snd (generate_completion Fixtures.sdk_up Fixtures.self
           "ibm/granite-13b-chat-v2" "What is AI?" "" None None
           {[ "top_k" := VInt 50; "temperature" := VInt 0 ]} [])
    = [] ++ new
    ∧ gen_params !! "top_k" = Some (VInt 50)
    ∧ gen_params !! "temperature" = None
    ∧ Call_generate
        (model_inference_of Fixtures.self "ibm/granite-13b-chat-v2" gen_params)
        "What is AI?" ∈ new.
Proof.
  destruct (generate_completion_forwards_truthy_parameters Fixtures.sdk_up
              Fixtures.self "ibm/granite-13b-chat-v2" "What is AI?" "" None None
              {[ "top_k" := VInt 50; "temperature" := VInt 0 ]} [])
    as (gen_params & new & Htr & Hforward & _ & _ & Hcalled).
  exists gen_params, new. split; [exact Htr|]. split; [|split].
  - rewrite (Hforward "top_k" "top_k"); [reflexivity|].
    unfold sampling_parameters. repeat constructor.
  - rewrite (Hforward "temperature" "temperature"); [reflexivity|].
    unfold sampling_parameters. repeat constructor.
  - apply Hcalled. split; [intros _|]; reflexivity.
Defined.

(** C9: [generate_embedding] never raises.  When a step fails -- the import
    of the embedding class (a backend without embedding support), building
    the embedding model, or the query -- it returns the empty list; when all
    three go through and the query returns a list, it returns that list. *)
Theorem generate_embedding_degrades sdk self model text tr :
  (∃ vector, fst (generate_embedding sdk self model text tr) = Ok vector)
  ∧ (∀ e, embedding_failure sdk self model text e →
       fst (generate_embedding sdk self model text tr) = Ok [])
  ∧ (∀ vector,
       import_Embeddings sdk = None →
       Embeddings_init sdk (embeddings_of self model) = None →
       embed_query sdk (embeddings_of self model) text = Ok (VList vector) →
       fst (generate_embedding sdk self model text tr) = Ok vector).
Proof.
  unfold generate_embedding, generate_embedding_body, try_except, embeddings_of.
  split; [|split].
  - run_monad. case_sdk; simpl; eauto.
  - intros e [Himp | Himp Hinit | Himp Hinit Hq]; unfold embeddings_of in *; run_monad.
    + by rewrite Himp.
    + by rewrite Himp, Hinit.
    + by rewrite Himp, Hinit, Hq.
  - intros vector Himp Hinit Hq. run_monad. by rewrite Himp, Hinit, Hq.
Qed.

Lemma generate_embedding_degrades_witness :
  fst (generate_embedding Fixtures.sdk_no_embeddings Fixtures.self
         "ibm/slate-125m-english-rtrvr" "What is AI?" []) = Ok []
  ∧ fst (generate_embedding Fixtures.sdk_up Fixtures.self
           "ibm/slate-125m-english-rtrvr" "What is AI?" []) = Ok Fixtures.vector.
Proof.
  split.
  - apply (proj1 (proj2 (generate_embedding_degrades Fixtures.sdk_no_embeddings
             Fixtures.self "ibm/slate-125m-english-rtrvr" "What is AI?" []))
             Fixtures.no_embeddings_error).
    apply embeddings_missing. reflexivity.
  - apply (proj2 (proj2 (generate_embedding_degrades Fixtures.sdk_up
             Fixtures.self "ibm/slate-125m-english-rtrvr" "What is AI?" []))
             Fixtures.vector); reflexivity.
Defined.

Lemma stream_gen_params_run kwargs tr :
  stream_gen_params kwargs tr = (Ok (stream_params kwargs), tr).
Proof.
  unfold stream_gen_params, stream_params.
  repeat (erewrite bind_ok; [|apply forward_param_run]).
  done.
Qed.

Lemma yield_chunks_run cs tr :
  yield_chunks cs tr = (Ok tt, tr ++ map Yield (truthy_chunks cs)).
Proof.
  revert tr. induction cs as [|c cs IH]; intros tr; simpl.
  - unfold ret. by rewrite app_nil_r.
  - destruct (truthy c); run_monad; rewrite IH; [|done].
    by rewrite <- app_assoc.
Qed.

Lemma yielded_app tr1 tr2 : yielded (tr1 ++ tr2) = yielded tr1 ++ yielded tr2.
Proof. apply omap_app. Qed.

Lemma yielded_Yield cs : yielded (map Yield cs) = cs.
Proof. induction cs as [|c cs IH]; simpl; [done|]. unfold yielded in *. simpl. by rewrite IH. Qed.

Lemma stream_completion_never_raises sdk self model prompt images enable_thinking kwargs tr :
  fst (stream_completion sdk self model prompt images enable_thinking kwargs tr) = Ok tt.
Proof.
  unfold stream_completion, try_except.
  destruct (stream_completion_body _ _ _ _ _ _) as [[[]|e] tr']; done.
Qed.

(** The loop yields the truthy chunks, then ends as the stream ends. *)
Lemma stream_loop_run sdk mi prompt tr :
  stream_loop sdk mi prompt tr
  = (match ending (generate_text_stream sdk mi prompt) with None => Ok tt | Some e => Raise e end,
     tr ++ Call_generate_text_stream mi prompt
          :: map Yield (truthy_chunks (chunks (generate_text_stream sdk mi prompt)))).
Proof.
  unfold stream_loop. run_monad. rewrite yield_chunks_run.
  rewrite <- app_assoc. simpl. by destruct (ending _).
Qed.

Lemma stream_body_run sdk self model prompt kwargs tr :
  objects_built sdk self model (stream_params kwargs) →
  let mi := model_inference_of self model (stream_params kwargs) in
  ∃ setup, yielded setup = [] ∧
  stream_completion_body sdk self model prompt kwargs tr
  = try_except (stream_loop sdk mi prompt) is_AttributeError
      (fun _ => stream_fallback sdk mi prompt) (tr ++ setup).
Proof.
  intros [Hacc Hmi] mi. unfold stream_completion_body.
  rewrite (bind_ok _ _ _ _ _ (stream_gen_params_run kwargs tr)).
  erewrite bind_ok; [|by apply make_parameters_ok].
  erewrite bind_ok; [|rewrite make_model_inference_run; unfold model_inference_of in Hmi; by rewrite Hmi].
  rewrite <- app_assoc. eexists. split; [|reflexivity].
  by destruct (truthy _).
Qed.

Lemma extract_text_outcome result tr :
  extract_text result tr = (fst (extract_text result []), tr).
Proof.
  destruct result as [d|r]; [|done].
  unfold extract_text, bind, lift_outcome. simpl.
  repeat case_match; simplify_eq/=; done.
Qed.

Lemma stream_fallback_yields sdk mi prompt tr :
  let r := try_except (stream_fallback sdk mi prompt) is_Exception
             (fun e : exc => let* _ := print ("Error in stream_completion: " +:+ exc_str e) in
                       emit (Yield (VStr ""))) tr in
  yielded (snd r) = yielded tr ++ [fallback_chunk sdk mi prompt].
Proof.
  unfold stream_fallback, fallback_chunk, try_except. simpl.
  unfold bind at 1. rewrite call_generate_run.
  destruct (generate sdk mi prompt) as [result|e']; simpl.
  - unfold bind. rewrite extract_text_outcome.
    destruct (fst (extract_text result [])) as [text|e']; run_monad;
      rewrite !yielded_app; simpl; by rewrite ?app_nil_r.
  - run_monad. rewrite !yielded_app. simpl. by rewrite ?app_nil_r.
Qed.

(** C4, as stated, fails: a stream that raises an [AttributeError] after
    its first chunk is followed by the whole text of a blocking call, not by
    an empty chunk. *)
Lemma stream_completion_attribute_error_mid_stream :
  fst (stream_completion Fixtures.sdk_broken_stream Fixtures.self
         "ibm/granite-13b-chat-v2" "Say hello" None None ∅ []) = Ok tt
  ∧ yielded (snd (stream_completion Fixtures.sdk_broken_stream Fixtures.self
                    "ibm/granite-13b-chat-v2" "Say hello" None None ∅ []))
    = [VStr "Hel"; VStr "Hello"].
Proof. vm_compute. done. Qed.

(** What the generator yields when the stream ends in an exception [e]:
    the truthy chunks produced so far, then one last chunk, which is empty
    unless [e] is an [AttributeError]. *)
Lemma stream_completion_yields sdk self model prompt images enable_thinking kwargs tr e :
  let mi := model_inference_of self model (stream_params kwargs) in
  let stream := generate_text_stream sdk mi prompt in
  objects_built sdk self model (stream_params kwargs) →
  ending stream = Some e →
  yielded (snd (stream_completion sdk self model prompt images enable_thinking kwargs tr))
  = yielded tr ++ truthy_chunks (chunks stream)
    ++ [if is_AttributeError e then fallback_chunk sdk mi prompt else VStr ""].
Proof.
  intros mi stream Hbuilt Hend.
  destruct (stream_body_run sdk self model prompt kwargs tr Hbuilt)
    as (setup & Hsetup & Hbody).
  unfold stream_completion, try_except at 1. rewrite Hbody. fold mi.
  unfold try_except. rewrite stream_loop_run. fold stream. rewrite Hend.
  destruct (is_AttributeError e) eqn:Hattr.
  - pose proof (stream_fallback_yields sdk mi prompt
      ((tr ++ setup) ++ Call_generate_text_stream mi prompt
         :: map Yield (truthy_chunks (chunks stream)))) as Hfb.
    simpl in Hfb. unfold try_except in Hfb.
    destruct (stream_fallback sdk mi prompt _) as [[[]|e'] tr']; simpl in *;
      rewrite Hfb, !yielded_app, Hsetup; simpl;
      change (omap _ (map Yield ?l)) with (yielded (map Yield l));
      by rewrite yielded_Yield, app_nil_r, <- app_assoc.
  - run_monad. rewrite !yielded_app, Hsetup. simpl.
    change (omap _ (map Yield ?l)) with (yielded (map Yield l)).
    by rewrite yielded_Yield, !app_nil_r, <- app_assoc.
Qed.

(** C4, amended: [stream_completion] never raises, and when the stream
    fails after some chunks with an exception that is not an
    [AttributeError], the sequence is the truthy chunks produced so far
    followed by a single empty chunk, and ends there. *)
Theorem stream_completion_on_failure
    sdk self model prompt images enable_thinking kwargs tr :
  let mi := model_inference_of self model (stream_params kwargs) in
  let stream := generate_text_stream sdk mi prompt in
  let run := stream_completion sdk self model prompt images enable_thinking kwargs tr in
  fst run = Ok tt
  ∧ (∀ e, objects_built sdk self model (stream_params kwargs) →
        ending stream = Some e →
        is_AttributeError e = false →
        yielded (snd run) = yielded tr ++ truthy_chunks (chunks stream) ++ [VStr ""]).
Proof.
  intros mi stream run. split; [apply stream_completion_never_raises|].
  intros e Hbuilt Hend Hattr. subst run.
  rewrite (stream_completion_yields sdk self model prompt images enable_thinking
             kwargs tr e Hbuilt Hend).
  by rewrite Hattr.
Qed.

Lemma stream_completion_on_failure_witness :
  yielded (snd (stream_completion Fixtures.sdk_down Fixtures.self
                  "ibm/granite-13b-chat-v2" "Say hello" None None ∅ []))
  = [VStr "Hel"; VStr ""].
Proof.
  apply (proj2 (stream_completion_on_failure Fixtures.sdk_down Fixtures.self
           "ibm/granite-13b-chat-v2" "Say hello" None None ∅ [])
           Fixtures.connection_error).
  - split; [intros _|]; reflexivity.
  - reflexivity.
  - reflexivity.
Defined.

End ClientFacts.

(** ** Facts about the composition root *)

Module FactoryFacts.

Import WatsonXClient Factory ClientFacts.

Lemma zoom_heap {A} (m : M trace A) st :
  heap (snd (zoom out set_out m st)) = heap st.
Proof. unfold zoom. by destruct (m (out st)). Qed.

(** Selecting the backend and building its client leaves the heap alone. *)
Lemma make_llm_client_heap sdk cfg st :
  heap (snd (make_llm_client sdk cfg st)) = heap st.
Proof.
  unfold make_llm_client.
  destruct (String.eqb _ _).
  - unfold bind, lift_outcome, ret, raise.
    repeat (case_match; simplify_eq/=; try done).
    all: match goal with H : zoom _ _ _ _ = _ |- _ =>
           apply (f_equal (λ r, heap (snd r))) in H; rewrite zoom_heap in H; done
         end.
  - unfold bind, lift_outcome, ret, log.
    repeat (case_match; simplify_eq/=; try done).
Qed.

(** With the cloud backend and an empty credential, no client is built. *)
Lemma make_llm_client_missing_credential sdk cfg st :
  lower (LLM_BACKEND cfg) = "watsonx" →
  WATSONX_CONFIG cfg !! "api_key" = Some (VStr "") →
  make_llm_client sdk cfg st = (Raise (Exc ValueError incomplete_message), st).
Proof.
  intros Hbackend Hkey. unfold make_llm_client. rewrite Hbackend. simpl.
  unfold bind, lift_outcome, getitem. rewrite Hkey. done.
Qed.

(** C5: with the cloud backend selected and an empty credential, whatever
    the project identifier, [get_agent] and [get_indexing_pipeline] raise a
    [ValueError] whose message names [WATSONX_API_KEY]; all that has happened
    by then is the call to [load_dotenv]: no client has been constructed and
    nothing of the SDK has been touched. *)
Theorem missing_credential_fails_fast sdk cfg Agent_init mode st :
  lower (LLM_BACKEND cfg) = "watsonx" →
  WATSONX_CONFIG cfg !! "api_key" = Some (VStr "") →
  ∃ e, exc_cls e = ValueError
     ∧ mentions "WATSONX_API_KEY" (exc_str e) = true
     ∧ get_agent sdk cfg Agent_init mode st
       = (Raise e, {| heap := heap st; out := out st ++ [Load_dotenv] |})
     ∧ get_indexing_pipeline sdk cfg mode st
       = (Raise e, {| heap := heap st; out := out st ++ [Load_dotenv] |}).
Proof.
  intros Hbackend Hkey. exists (Exc ValueError incomplete_message).
  split; [done|]. split; [by vm_compute|].
  unfold get_agent, get_indexing_pipeline.
  split.
  - erewrite bind_ok; [|reflexivity].
    erewrite bind_raise; [done|]. by apply make_llm_client_missing_credential.
  - erewrite bind_ok; [|reflexivity].
    erewrite bind_raise; [done|]. by apply make_llm_client_missing_credential.
Qed.

Lemma missing_credential_fails_fast_witness :
  ∃ e, exc_cls e = ValueError
     ∧ mentions "WATSONX_API_KEY" (exc_str e) = true
     ∧ get_agent Fixtures.sdk_up Fixtures.cloud_config Fixtures.agent_built
         "default" Fixtures.start
       = (Raise e, {| heap := heap Fixtures.start;
                      out := out Fixtures.start ++ [Load_dotenv] |})
     ∧ get_indexing_pipeline Fixtures.sdk_up Fixtures.cloud_config "default" Fixtures.start
       = (Raise e, {| heap := heap Fixtures.start;
                      out := out Fixtures.start ++ [Load_dotenv] |}).
Proof.
  apply (missing_credential_fails_fast Fixtures.sdk_up Fixtures.cloud_config
           Fixtures.agent_built "default" Fixtures.start); reflexivity.
Defined.


(** A constructor that raises does so after the injection: the call ends
    in the constructor's exception and the entry has the default storage. *)
Lemma get_agent_refused_after_injection :
  fst (get_agent Fixtures.sdk_up Fixtures.local_config Fixtures.agent_refused
         "default" Fixtures.start)
  = Raise Fixtures.database_error
  ∧ Factory.table_entry Fixtures.local_config
      (snd (get_agent Fixtures.sdk_up Fixtures.local_config Fixtures.agent_refused
              "default" Fixtures.start))
      "default"
    = Some (<["storage" := default_storage]> Fixtures.retrieval_only).
Proof. vm_compute. done. Qed.


(** C3 fails on [get_indexing_pipeline]: for a mode that is not in the
    table, it hands the pipeline the ["default"] entry as it is, and that
    entry has no storage here. *)
Lemma get_indexing_pipeline_without_storage :
  Fixtures.local_config.(PIPELINE_CONFIGS) !! "research" = None
  ∧ match get_indexing_pipeline Fixtures.sdk_up Fixtures.local_config "research"
            Fixtures.start with
    | (Ok pipeline, st') =>
        Fixtures.local_config.(PIPELINE_CONFIGS) !! "default" = Some (ip_config pipeline)
        ∧ heap st' !! ip_config pipeline = Some Fixtures.retrieval_only
        ∧ Fixtures.retrieval_only !! "storage" = None
    | (Raise _, _) => False
    end.
Proof. vm_compute. done. Qed.

(** On the same input, [get_agent] hands the agent the ["default"] entry
    with the default storage in it. *)
Lemma get_agent_with_storage :
  match get_agent Fixtures.sdk_up Fixtures.local_config Fixtures.agent_built
          "research" Fixtures.start with
  | (Ok agent, st') =>
      Fixtures.local_config.(PIPELINE_CONFIGS) !! "default" = Some (pipeline_configs agent)
      ∧ heap st' !! pipeline_configs agent
        = Some (<["storage" := default_storage]> Fixtures.retrieval_only)
  | (Raise _, _) => False
  end.
Proof. vm_compute. done. Qed.

(** With the local backend, [get_agent] hands the [Agent] constructor the
    object the mode resolves to, an [OllamaClient] for the configured host
    and the local configuration; it returns that agent, or raises what the
    constructor raised, and either way the object has a storage sub-record
    when the call is over. *)
Lemma get_agent_local_has_storage sdk cfg Agent_init mode st host l d :
  String.eqb (lower (LLM_BACKEND cfg)) "watsonx" = false →
  OLLAMA_CONFIG cfg !! "host" = Some host →
  resolve (PIPELINE_CONFIGS cfg) mode = Ok l →
  heap st !! l = Some d →
  let agent := {| pipeline_configs := l;
                  agent_llm_client := Ollama {| host := host |};
                  ollama_config := OLLAMA_CONFIG cfg |} in
  ∃ st' d',
    get_agent sdk cfg Agent_init mode st
    = (match Agent_init agent with None => Ok agent | Some e => Raise e end, st')
    ∧ heap st' !! l = Some d'
    ∧ is_Some (d' !! "storage").
Proof.
  intros Hbackend Hhost Hresolve Hd agent.
  unfold get_agent.
  erewrite bind_ok; [|reflexivity].
  erewrite bind_ok; last first.
  { unfold make_llm_client. rewrite Hbackend.
    unfold bind, lift_outcome, getitem, log, zoom, emit, ret. simpl.
    rewrite Hhost. reflexivity. }
  simpl. erewrite bind_ok; [|unfold lift_outcome; by rewrite Hresolve].
  erewrite bind_ok; [|unfold deref; simpl; by rewrite Hd].
  fold agent.
  case_bool_decide as Hstorage; simpl.
  - unfold bind, ret, check. simpl.
    destruct (Agent_init agent); simpl; do 2 eexists; repeat split; done.
  - unfold bind, setitem, deref, ret, bind, check. simpl. rewrite Hd. simpl.
    destruct (Agent_init agent); simpl; do 2 eexists;
      (split; [reflexivity|]); (split; [apply lookup_insert_eq|]);
      rewrite lookup_insert_eq; eauto.
Qed.

Lemma get_agent_local_has_storage_witness :
  ∃ st' d',
    get_agent Fixtures.sdk_up Fixtures.local_config Fixtures.agent_built
      "research" Fixtures.start
    = (Ok {| pipeline_configs := 0;
             agent_llm_client := Ollama {| host := VStr "http://localhost:11434" |};
             ollama_config := OLLAMA_CONFIG Fixtures.local_config |}, st')
    ∧ heap st' !! 0 = Some d'
    ∧ is_Some (d' !! "storage").
Proof.
  apply (get_agent_local_has_storage Fixtures.sdk_up Fixtures.local_config
           Fixtures.agent_built "research" Fixtures.start
           (VStr "http://localhost:11434") 0 Fixtures.retrieval_only); reflexivity.
Defined.

End FactoryFacts.

(** ** More facts about the adapter *)

Module ClientExtras.

Import WatsonXClient ClientFacts Runs.

Lemma generate_completion_exact sdk self model prompt format images enable_thinking kwargs tr :
  generate_completion sdk self model prompt format images enable_thinking kwargs tr
  = (Ok (fst (completion sdk self model prompt images kwargs)),
     tr ++ snd (completion sdk self model prompt images kwargs)).
Proof.
  rewrite generate_completion_run. unfold generate_completion_body.
  rewrite (bind_ok _ _ _ _ _ (completion_gen_params_run kwargs tr)).
  unfold completion, setup, completion_error_line, image_warning.
  unfold make_parameters, make_model_inference, call_generate,
    model_inference_of, parameters_of.
  set (gp := completion_params kwargs).
  destruct (truthy (VDict gp)); destruct (truthy_images images); run_monad.
  all: repeat match goal with
       | |- context [match ?o with None => _ | Some _ => _ end] => destruct o eqn:?
       | |- context [match ?o with Ok _ => _ | Raise _ => _ end] =>
           lazymatch o with
           | fst _ => fail
           | _ => destruct o eqn:?
           end
       | |- context [extract_text ?r (?t ++ ?u)] =>
           rewrite (extract_text_outcome r (t ++ u));
           destruct (fst (extract_text r [])) eqn:?
       end; simpl.
  all: by rewrite <- ?app_assoc.
Qed.

Lemma setup_built sdk self model gen_params :
  objects_built sdk self model gen_params →
  setup sdk self model gen_params
  = (Ok (model_inference_of self model gen_params),
     (if truthy (VDict gen_params) then [New_TextGenParameters gen_params] else [])
     ++ [New_ModelInference (model_inference_of self model gen_params)]).
Proof.
  intros [Hacc Hmi]. unfold setup, parameters_accepted in *.
  destruct (truthy (VDict gen_params)).
  - by rewrite Hacc, Hmi.
  - by rewrite Hmi.
Qed.

Lemma completion_built sdk self model prompt images kwargs :
  let mi := model_inference_of self model (completion_params kwargs) in
  objects_built sdk self model (completion_params kwargs) →
  fst (completion sdk self model prompt images kwargs)
  = match generate sdk mi prompt with
    | Raise e => failure_result e
    | Ok result =>
        match fst (extract_text result []) with
        | Ok text => success_result text model
        | Raise e => failure_result e
        end
    end.
Proof.
  intros mi Hbuilt. unfold completion. rewrite (setup_built _ _ _ _ Hbuilt). fold mi.
  destruct (generate sdk mi prompt) as [result|e]; [|done].
  by destruct (fst (extract_text result [])).
Qed.

(** X2: [generate_completion] takes the text from the first result: when the
    two SDK objects are built and [generate] returns a dict whose
    ['results'] is a list starting with a dict that has ['generated_text'],
    the result is [{'response': that text, 'model': model, 'done': True}]. *)
Theorem generate_completion_extracts_text
    sdk self model prompt format images enable_thinking kwargs tr d first rest text :
  objects_built sdk self model (completion_params kwargs) →
  generate sdk (model_inference_of self model (completion_params kwargs)) prompt
  = Ok (GDict d) →
  d !! "results" = Some (VList (VDict first :: rest)) →
  first !! "generated_text" = Some text →
  fst (generate_completion sdk self model prompt format images enable_thinking kwargs tr)
  = Ok ({[ "response" := text; "model" := VStr model; "done" := VBool true ]} : pydict).
Proof.
  intros Hbuilt Hgen Hresults Htext.
  rewrite generate_completion_exact. simpl.
  rewrite (completion_built _ _ _ _ _ _ Hbuilt), Hgen.
  unfold extract_text, bind, lift_outcome, get_method. simpl.
  rewrite Hresults. simpl. by rewrite Htext.
Qed.

Lemma generate_completion_extracts_text_witness :
  fst (generate_completion Fixtures.sdk_up Fixtures.self
         "ibm/granite-13b-chat-v2" "Say hello" "" None None ∅ [])
  = Ok ({[ "response" := VStr "Hello"; "model" := VStr "ibm/granite-13b-chat-v2";
           "done" := VBool true ]} : pydict).
Proof.
  apply (generate_completion_extracts_text Fixtures.sdk_up Fixtures.self
           "ibm/granite-13b-chat-v2" "Say hello" "" None None ∅ []
           {[ "results" := VList [VDict {[ "generated_text" := VStr "Hello" ]}] ]}
           {[ "generated_text" := VStr "Hello" ]} [] (VStr "Hello")).
  - split; [intros _|]; reflexivity.
  - reflexivity.
  - reflexivity.
  - reflexivity.
Defined.

(** X3: a dict without ['results'], or whose first result has no
    ['generated_text'], is not an error: the defaults of the two [get]
    calls apply and the result is the success dict with an empty text. *)
Theorem generate_completion_missing_fields
    sdk self model prompt format images enable_thinking kwargs tr d :
  objects_built sdk self model (completion_params kwargs) →
  generate sdk (model_inference_of self model (completion_params kwargs)) prompt
  = Ok (GDict d) →
  d !! "results" = None
  ∨ (∃ first rest, d !! "results" = Some (VList (VDict first :: rest))
                   ∧ first !! "generated_text" = None) →
  fst (generate_completion sdk self model prompt format images enable_thinking kwargs tr)
  = Ok ({[ "response" := VStr ""; "model" := VStr model; "done" := VBool true ]} : pydict).
Proof.
  intros Hbuilt Hgen Hmissing.
  rewrite generate_completion_exact. simpl.
  rewrite (completion_built _ _ _ _ _ _ Hbuilt), Hgen.
  unfold extract_text, bind, lift_outcome, get_method. simpl.
  destruct Hmissing as [Hnone | (first & rest & Hresults & Htext)].
  - rewrite Hnone. simpl. by rewrite lookup_empty.
  - rewrite Hresults. simpl. by rewrite Htext.
Qed.

Lemma generate_completion_missing_fields_witness :
  fst (generate_completion Cases.sdk_no_results Fixtures.self
         "ibm/granite-13b-chat-v2" "Say hello" "" None None ∅ [])
  = Ok ({[ "response" := VStr ""; "model" := VStr "ibm/granite-13b-chat-v2";
           "done" := VBool true ]} : pydict).
Proof.
  apply (generate_completion_missing_fields Cases.sdk_no_results Fixtures.self
           "ibm/granite-13b-chat-v2" "Say hello" "" None None ∅ [] ∅).
  - split; [intros _|]; reflexivity.
  - reflexivity.
  - left. reflexivity.
Defined.

(** X4: a dict whose ['results'] is the empty list makes the subscript
    [[0]] raise an [IndexError], which the handler turns into the failure
    dict with the error ["list index out of range"]. *)
Theorem generate_completion_empty_results
    sdk self model prompt format images enable_thinking kwargs tr d :
  objects_built sdk self model (completion_params kwargs) →
  generate sdk (model_inference_of self model (completion_params kwargs)) prompt
  = Ok (GDict d) →
  d !! "results" = Some (VList []) →
  fst (generate_completion sdk self model prompt format images enable_thinking kwargs tr)
  = Ok ({[ "response" := VStr ""; "error" := VStr "list index out of range" ]} : pydict).
Proof.
  intros Hbuilt Hgen Hresults.
  rewrite generate_completion_exact. simpl.
  rewrite (completion_built _ _ _ _ _ _ Hbuilt), Hgen.
  unfold extract_text, bind, lift_outcome, get_method. simpl.
  by rewrite Hresults.
Qed.

Lemma generate_completion_empty_results_witness :
  fst (generate_completion Cases.sdk_empty_results Fixtures.self
         "ibm/granite-13b-chat-v2" "Say hello" "" None None ∅ [])
  = Ok ({[ "response" := VStr ""; "error" := VStr "list index out of range" ]} : pydict).
Proof.
  apply (generate_completion_empty_results Cases.sdk_empty_results Fixtures.self
           "ibm/granite-13b-chat-v2" "Say hello" "" None None ∅ []
           {[ "results" := VList [] ]}).
  - split; [intros _|]; reflexivity.
  - reflexivity.
  - reflexivity.
Defined.

(** X5: a result of [generate] that is not a dict is returned as its
    [str()] rendering, in the success dict. *)
Theorem generate_completion_renders_other_results
    sdk self model prompt format images enable_thinking kwargs tr rendering :
  objects_built sdk self model (completion_params kwargs) →
  generate sdk (model_inference_of self model (completion_params kwargs)) prompt
  = Ok (GOther rendering) →
  fst (generate_completion sdk self model prompt format images enable_thinking kwargs tr)
  = Ok ({[ "response" := VStr rendering; "model" := VStr model; "done" := VBool true ]}
        : pydict).
Proof.
  intros Hbuilt Hgen.
  rewrite generate_completion_exact. simpl.
  by rewrite (completion_built _ _ _ _ _ _ Hbuilt), Hgen.
Qed.

Lemma generate_completion_renders_other_results_witness :
  fst (generate_completion Cases.sdk_plain_text Fixtures.self
         "ibm/granite-13b-chat-v2" "Say hello" "" None None ∅ [])
  = Ok ({[ "response" := VStr "Hello"; "model" := VStr "ibm/granite-13b-chat-v2";
           "done" := VBool true ]} : pydict).
Proof.
  apply (generate_completion_renders_other_results Cases.sdk_plain_text Fixtures.self
           "ibm/granite-13b-chat-v2" "Say hello" "" None None ∅ [] "Hello").
  - split; [intros _|]; reflexivity.
  - reflexivity.
Defined.

Lemma sdk_calls_app tr1 tr2 : sdk_calls (tr1 ++ tr2) = sdk_calls tr1 ++ sdk_calls tr2.
Proof. apply List.filter_app. Qed.

Lemma completion_ignores_images sdk self model prompt images1 images2 kwargs :
  fst (completion sdk self model prompt images1 kwargs)
  = fst (completion sdk self model prompt images2 kwargs)
  ∧ sdk_calls (snd (completion sdk self model prompt images1 kwargs))
    = sdk_calls (snd (completion sdk self model prompt images2 kwargs)).
Proof.
  unfold completion.
  destruct (setup sdk self model (completion_params kwargs)) as [[mi|e] events];
    [|done].
  destruct (generate sdk mi prompt) as [result|e];
    [destruct (fst (extract_text result [])) as [text|e]|];
    (split; [done|]);
    destruct (truthy_images images1), (truthy_images images2);
    simpl; by rewrite ?sdk_calls_app.
Qed.

(** X6: [format], [images] and [enable_thinking] never reach the backend:
    two calls of [generate_completion] that differ only in them return the
    same result and make the same calls to the SDK (the image warning is
    the only difference, and it is a printed line). *)
Theorem generate_completion_ignores_options
    sdk self model prompt kwargs tr
    format1 images1 enable_thinking1 format2 images2 enable_thinking2 :
  let run1 := generate_completion sdk self model prompt format1 images1
                enable_thinking1 kwargs tr in
  let run2 := generate_completion sdk self model prompt format2 images2
                enable_thinking2 kwargs tr in
  fst run1 = fst run2 ∧ sdk_calls (snd run1) = sdk_calls (snd run2).
Proof.
  intros run1 run2. subst run1 run2. rewrite !generate_completion_exact. simpl.
  destruct (completion_ignores_images sdk self model prompt images1 images2 kwargs)
    as [Hfst Hcalls].
  split; [by rewrite Hfst|].
  by rewrite !sdk_calls_app, Hcalls.
Qed.

Lemma forwarded_agree (kwargs1 kwargs2 : pydict) name :
  kwargs1 !! name = kwargs2 !! name → forwarded kwargs1 name = forwarded kwargs2 name.
Proof. unfold forwarded. by intros ->. Qed.

Lemma completion_params_agree (kwargs1 kwargs2 : pydict) :
  (∀ name, name ∈ sampling_parameters.*1 → kwargs1 !! name = kwargs2 !! name) →
  completion_params kwargs1 = completion_params kwargs2.
Proof.
  intros Hagree. unfold completion_params.
  rewrite (forwarded_agree kwargs1 kwargs2 "top_k"),
    (forwarded_agree kwargs1 kwargs2 "top_p"),
    (forwarded_agree kwargs1 kwargs2 "temperature"),
    (forwarded_agree kwargs1 kwargs2 "max_tokens"); [done|..];
    apply Hagree; unfold sampling_parameters; simpl; repeat constructor.
Qed.

(** X7: of its keyword arguments, [generate_completion] reads
    [max_tokens], [temperature], [top_p] and [top_k] only: two dicts of
    keyword arguments that agree on these four give the same run. *)
Theorem generate_completion_reads_four_keywords
    sdk self model prompt format images enable_thinking (kwargs1 kwargs2 : pydict) tr :
  (∀ name, name ∈ ["max_tokens"; "temperature"; "top_p"; "top_k"] →
           kwargs1 !! name = kwargs2 !! name) →
  generate_completion sdk self model prompt format images enable_thinking kwargs1 tr
  = generate_completion sdk self model prompt format images enable_thinking kwargs2 tr.
Proof.
  intros Hagree. rewrite !generate_completion_exact. unfold completion.
  by rewrite (completion_params_agree kwargs1 kwargs2 Hagree).
Qed.

Lemma generate_completion_reads_four_keywords_witness :
  generate_completion Fixtures.sdk_up Fixtures.self
    "ibm/granite-13b-chat-v2" "Say hello" "" None None
    {[ "top_k" := VInt 50; "seed" := VInt 7 ]} []
  = generate_completion Fixtures.sdk_up Fixtures.self
      "ibm/granite-13b-chat-v2" "Say hello" "" None None
      {[ "top_k" := VInt 50; "stop" := VList [VStr "."] ]} [].
Proof.
  apply (generate_completion_reads_four_keywords Fixtures.sdk_up Fixtures.self
           "ibm/granite-13b-chat-v2" "Say hello" "" None None
           {[ "top_k" := VInt 50; "seed" := VInt 7 ]}
           {[ "top_k" := VInt 50; "stop" := VList [VStr "."] ]} []).
  intros name Hin.
  repeat (apply elem_of_cons in Hin as [-> | Hin]; [reflexivity|]).
  by apply elem_of_nil in Hin.
Defined.

Lemma printed_app tr1 tr2 : printed (tr1 ++ tr2) = printed tr1 ++ printed tr2.
Proof. apply omap_app. Qed.

Lemma generate_calls_app tr1 tr2 :
  generate_calls (tr1 ++ tr2) = generate_calls tr1 + generate_calls tr2.
Proof. unfold generate_calls. by rewrite List.filter_app, length_app. Qed.

Lemma setup_quiet sdk self model gen_params :
  printed (snd (setup sdk self model gen_params)) = []
  ∧ generate_calls (snd (setup sdk self model gen_params)) = 0.
Proof.
  unfold setup. destruct (truthy (VDict gen_params)); case_sdk; done.
Qed.

(** X8: [generate_completion] returns an error exactly when it prints it:
    if the result has an ['error'], the last thing the call does is print
    ["Error generating completion: "] followed by that error; if it has
    none, the only line the call can have printed is the image warning. *)
Theorem generate_completion_reports_failures
    sdk self model prompt format images enable_thinking kwargs tr :
  ∃ (d : pydict) (new : trace),
    generate_completion sdk self model prompt format images enable_thinking kwargs tr
    = (Ok d, tr ++ new)
    ∧ match d !! "error" with
      | Some err =>
          ∃ message, err = VStr message
            ∧ last new = Some (Print ("Error generating completion: " +:+ message))
      | None =>
          ∀ line, line ∈ printed new →
                  line = "Warning: Image support in Watson X may vary by model"
      end.
Proof.
  rewrite generate_completion_exact. do 2 eexists. split; [reflexivity|].
  unfold completion.
  destruct (setup_quiet sdk self model (completion_params kwargs)) as [Hquiet _].
  destruct (setup sdk self model (completion_params kwargs)) as [[mi|e] events];
    simpl in *.
  - destruct (generate sdk mi prompt) as [result|e];
      [destruct (fst (extract_text result [])) as [text|e]|]; simpl.
    + unfold success_result. simplify_map_eq.
      intros line. rewrite !printed_app, Hquiet. simpl.
      destruct (truthy_images images); simpl; set_solver.
    + unfold failure_result. simplify_map_eq. eexists. split; [done|].
      by rewrite !app_assoc, last_snoc.
    + unfold failure_result. simplify_map_eq. eexists. split; [done|].
      by rewrite !app_assoc, last_snoc.
  - unfold failure_result. simplify_map_eq. eexists. split; [done|].
    by rewrite last_snoc.
Qed.

(** X9: [generate_completion] never retries: it calls [generate] at most
    once, and exactly once when the SDK builds the parameters and the model
    handle. *)
Theorem generate_completion_calls_generate_once
    sdk self model prompt format images enable_thinking kwargs tr :
  ∃ new : trace,
    snd (generate_completion sdk self model prompt format images enable_thinking kwargs tr)
    = tr ++ new
    ∧ generate_calls new ≤ 1
    ∧ (objects_built sdk self model (completion_params kwargs) ↔ generate_calls new = 1).
Proof.
  rewrite generate_completion_exact. eexists. split; [reflexivity|]. simpl.
  unfold completion, objects_built, parameters_accepted.
  destruct (setup_quiet sdk self model (completion_params kwargs)) as [_ Hquiet].
  revert Hquiet. unfold setup.
  set (gp := completion_params kwargs). set (mi := model_inference_of self model gp).
  destruct (truthy (VDict gp));
    repeat match goal with
    | |- context [match ?o with None => _ | Some _ => _ end] => destruct o eqn:?
    | |- context [match ?o with Ok _ => _ | Raise _ => _ end] => destruct o eqn:?
    end; simpl; intros _;
    destruct (truthy_images images); unfold generate_calls; simpl;
    (split; [lia|]); split; try done; try lia; naive_solver.
Qed.

Lemma stream_completion_exact sdk self model prompt images enable_thinking kwargs tr :
  stream_completion sdk self model prompt images enable_thinking kwargs tr
  = (Ok tt, tr ++ streaming sdk self model prompt kwargs).
Proof.
  unfold stream_completion, stream_completion_body, try_except at 1.
  rewrite (bind_ok _ _ _ _ _ (stream_gen_params_run kwargs tr)).
  unfold streaming, setup, stream_error_line.
  unfold make_parameters, make_model_inference, model_inference_of, parameters_of.
  set (gp := stream_params kwargs).
  destruct (truthy (VDict gp)); run_monad.
  all: repeat match goal with
       | |- context [match TextGenParameters_init ?s ?g with _ => _ end] =>
           destruct (TextGenParameters_init s g) eqn:?; simpl
       | |- context [match ModelInference_init ?s ?m with _ => _ end] =>
           destruct (ModelInference_init s m) eqn:?; simpl
       end.
  all: try by rewrite <- ?app_assoc.
  all: unfold try_except; rewrite stream_loop_run.
  all: destruct (ending _) as [e|] eqn:Hend; simpl; [|by rewrite <- ?app_assoc].
  all: destruct (is_AttributeError e); simpl;
    [|run_monad; by rewrite <- ?app_assoc].
  all: unfold stream_fallback; unfold bind at 1; rewrite call_generate_run.
  all: destruct (generate _ _ _) as [result|e']; simpl;
    [|run_monad; by rewrite <- ?app_assoc].
  all: unfold bind at 1; rewrite extract_text_outcome.
  all: destruct (fst (extract_text result [])) as [text|e']; run_monad;
    by rewrite <- ?app_assoc.
Qed.

Lemma yielded_setup sdk self model gen_params :
  yielded (snd (setup sdk self model gen_params)) = [].
Proof.
  unfold setup. destruct (truthy (VDict gen_params)); case_sdk; done.
Qed.

Lemma setup_raises sdk self model gen_params :
  ¬ objects_built sdk self model gen_params →
  ∃ e, fst (setup sdk self model gen_params) = Raise e.
Proof.
  unfold objects_built, parameters_accepted, setup. intros Hnot.
  destruct (truthy (VDict gen_params));
    repeat match goal with
    | |- context [match ?o with None => _ | Some _ => _ end] => destruct o eqn:?
    end; simpl; eauto; exfalso; apply Hnot; done.
Qed.

(** X12: when the stream ends normally, [stream_completion] yields the
    chunks of the stream that are truthy, in order, and nothing else: empty
    chunks are skipped, no empty chunk is added at the end, and [generate]
    is not called. *)
Theorem stream_completion_yields_nonempty_chunks
    sdk self model prompt images enable_thinking kwargs tr :
  let stream :=
    generate_text_stream sdk (model_inference_of self model (stream_params kwargs))
      prompt in
  objects_built sdk self model (stream_params kwargs) →
  ending stream = None →
  yielded (snd (stream_completion sdk self model prompt images enable_thinking kwargs tr))
  = yielded tr ++ List.filter truthy (chunks stream)
  ∧ generate_calls
      (snd (stream_completion sdk self model prompt images enable_thinking kwargs tr))
    = generate_calls tr.
Proof.
  intros stream Hbuilt Hend. rewrite stream_completion_exact. simpl.
  unfold streaming. rewrite (setup_built _ _ _ _ Hbuilt). fold stream. rewrite Hend.
  rewrite yielded_app, generate_calls_app. split.
  - f_equal. destruct (truthy (VDict _)); simpl;
      change (omap _ (map Yield ?l)) with (yielded (map Yield l));
      by rewrite yielded_Yield.
  - assert (∀ mi p cs,
              generate_calls (Call_generate_text_stream mi p :: map Yield cs) = 0)
      as Hnone.
    { intros mi p cs. unfold generate_calls. simpl. induction cs; simpl; done. }
    rewrite generate_calls_app, Hnone.
    destruct (truthy (VDict _)); unfold generate_calls; simpl; lia.
Qed.

Lemma stream_completion_yields_nonempty_chunks_witness :
  yielded (snd (stream_completion Fixtures.sdk_up Fixtures.self
                  "ibm/granite-13b-chat-v2" "Say hello" None None ∅ []))
  = yielded [] ++ List.filter truthy [VStr "Hel"; VStr ""; VStr "lo"]
  ∧ generate_calls (snd (stream_completion Fixtures.sdk_up Fixtures.self
                           "ibm/granite-13b-chat-v2" "Say hello" None None ∅ []))
    = generate_calls [].
Proof.
  apply (stream_completion_yields_nonempty_chunks Fixtures.sdk_up Fixtures.self
           "ibm/granite-13b-chat-v2" "Say hello" None None ∅ []).
  - split; [intros _|]; reflexivity.
  - reflexivity.
Defined.

(** X13: when the model handle has no streaming primitive (the stream
    raises an [AttributeError] before any chunk), [stream_completion] makes
    one blocking [generate] call and yields its text as a single chunk: after
    the two SDK objects are built, all it does is try the stream, call
    [generate] once on the same handle with the prompt, and yield the text;
    nothing is printed. *)
Theorem stream_completion_without_streaming
    sdk self model prompt images enable_thinking kwargs tr e d first rest text :
  let gen_params := stream_params kwargs in
  let mi := model_inference_of self model gen_params in
  let run := stream_completion sdk self model prompt images enable_thinking kwargs tr in
  objects_built sdk self model gen_params →
  generate_text_stream sdk mi prompt = {| chunks := []; ending := Some e |} →
  is_AttributeError e = true →
  generate sdk mi prompt = Ok (GDict d) →
  d !! "results" = Some (VList (VDict first :: rest)) →
  first !! "generated_text" = Some text →
  yielded (snd run) = yielded tr ++ [text]
  ∧ snd run
    = tr ++ (if truthy (VDict gen_params)
             then [New_TextGenParameters gen_params] else [])
         ++ [New_ModelInference mi; Call_generate_text_stream mi prompt;
             Call_generate mi prompt; Yield text]
  ∧ generate_calls (snd run) = generate_calls tr + 1.
Proof.
  intros gen_params mi run Hbuilt Hstream Hattr Hgen Hresults Htext.
  assert (snd run
          = tr ++ (if truthy (VDict gen_params)
                   then [New_TextGenParameters gen_params] else [])
               ++ [New_ModelInference mi; Call_generate_text_stream mi prompt;
                   Call_generate mi prompt; Yield text]) as Hrun.
  { subst run. rewrite stream_completion_exact. simpl.
    unfold streaming. fold gen_params. rewrite (setup_built _ _ _ _ Hbuilt).
    fold mi.
    rewrite Hstream. cbn [chunks ending truthy_chunks List.filter map].
    rewrite Hattr, Hgen.
    unfold extract_text, bind, lift_outcome, get_method.
    cbn [fst]. rewrite Hresults. cbn [subscript0 fst]. rewrite Htext. cbn [fst].
    by rewrite <- !app_assoc. }
  split; [|split; [exact Hrun|]].
  - rewrite Hrun, !yielded_app. f_equal.
    by destruct (truthy (VDict gen_params)).
  - rewrite Hrun, !generate_calls_app.
    destruct (truthy (VDict gen_params)); unfold generate_calls; simpl; lia.
Qed.

Lemma stream_completion_without_streaming_witness :
  let gen_params := stream_params ∅ in
  let mi := model_inference_of Fixtures.self "ibm/granite-13b-chat-v2" gen_params in
  let run := stream_completion Cases.sdk_no_streaming Fixtures.self
               "ibm/granite-13b-chat-v2" "Say hello" None None ∅ [] in
  yielded (snd run) = yielded [] ++ [VStr "Hello"]
  ∧ snd run
    = [] ++ (if truthy (VDict gen_params)
             then [New_TextGenParameters gen_params] else [])
         ++ [New_ModelInference mi; Call_generate_text_stream mi "Say hello";
             Call_generate mi "Say hello"; Yield (VStr "Hello")]
  ∧ generate_calls (snd run) = generate_calls [] + 1.
Proof.
  apply (stream_completion_without_streaming Cases.sdk_no_streaming Fixtures.self
           "ibm/granite-13b-chat-v2" "Say hello" None None ∅ []
           Fixtures.no_stream_error
           {[ "results" := VList [VDict {[ "generated_text" := VStr "Hello" ]}] ]}
           {[ "generated_text" := VStr "Hello" ]} [] (VStr "Hello")).
  - split; [intros _|]; reflexivity.
  - reflexivity.
  - reflexivity.
  - reflexivity.
  - reflexivity.
  - reflexivity.
Defined.

(** X14: when the SDK refuses the parameters or the model handle,
    [stream_completion] yields exactly one chunk, the empty one, and opens
    no stream and makes no generation call. *)
Theorem stream_completion_setup_failure
    sdk self model prompt images enable_thinking kwargs tr :
  ¬ objects_built sdk self model (stream_params kwargs) →
  ∃ new,
    snd (stream_completion sdk self model prompt images enable_thinking kwargs tr)
    = tr ++ new
    ∧ yielded new = [VStr ""]
    ∧ (∀ mi p, (Call_generate_text_stream mi p ∉ new) ∧ (Call_generate mi p ∉ new)).
Proof.
  intros Hnot. rewrite stream_completion_exact. simpl.
  eexists. split; [reflexivity|]. unfold streaming.
  destruct (setup_raises _ _ _ _ Hnot) as [e He].
  pose proof (yielded_setup sdk self model (stream_params kwargs)) as Hy.
  revert He Hy. unfold setup.
  destruct (truthy (VDict _)); case_sdk; simpl; intros He Hy; try done.
  all: split; [done|]; intros mi p; split; set_solver.
Qed.

Lemma stream_completion_setup_failure_witness :
  ∃ new,
    snd (stream_completion Cases.sdk_rejects_model Fixtures.self
           "ibm/unknown" "Say hello" None None ∅ [])
    = [] ++ new
    ∧ yielded new = [VStr ""]
    ∧ (∀ mi p, (Call_generate_text_stream mi p ∉ new) ∧ (Call_generate mi p ∉ new)).
Proof.
  apply (stream_completion_setup_failure Cases.sdk_rejects_model Fixtures.self
           "ibm/unknown" "Say hello" None None ∅ []).
  intros [_ Hmodel]. discriminate Hmodel.
Defined.





Lemma truthy_chunks_truthy cs : Forall (λ c, truthy c = true) (truthy_chunks cs).
Proof.
  unfold truthy_chunks. induction cs as [|c cs IH]; simpl; [constructor|].
  destruct (truthy c) eqn:Hc; [constructor|]; done.
Qed.

(** X16: an empty chunk can only be the last one: what
    [stream_completion] yields is a run of truthy chunks followed by at
    most one more chunk. *)
Theorem stream_completion_empty_chunk_only_last
    sdk self model prompt images enable_thinking kwargs tr :
  ∃ (new : trace) (chunks last : list pyval),
    snd (stream_completion sdk self model prompt images enable_thinking kwargs tr)
    = tr ++ new
    ∧ yielded new = chunks ++ last
    ∧ Forall (λ c, truthy c = true) chunks
    ∧ length last ≤ 1.
Proof.
  rewrite stream_completion_exact. exists (streaming sdk self model prompt kwargs).
  simpl.
  pose proof (yielded_setup sdk self model (stream_params kwargs)) as Hsetup.
  unfold streaming.
  destruct (setup sdk self model (stream_params kwargs)) as [[mi|e] events];
    simpl in Hsetup.
  - exists (truthy_chunks (chunks (generate_text_stream sdk mi prompt))).
    assert (∀ tail,
      yielded (events ++ Call_generate_text_stream mi prompt
                 :: map Yield (truthy_chunks (chunks (generate_text_stream sdk mi prompt)))
               ++ tail)
      = truthy_chunks (chunks (generate_text_stream sdk mi prompt)) ++ yielded tail)
      as Hy.
    { intros tail. rewrite yielded_app, Hsetup. simpl.
      change (omap ?f (?l ++ tail)) with (yielded (l ++ tail)).
      by rewrite yielded_app, yielded_Yield. }
    destruct (ending _) as [e|];
      [destruct (is_AttributeError e);
       [destruct (generate sdk mi prompt) as [result|e'];
        [destruct (fst (extract_text result [])) as [text|e']|]|]|].
    all: eexists; split; [reflexivity|].
    all: rewrite <- ?app_assoc; simpl.
    all: try (rewrite Hy; simpl; split; [reflexivity|];
              split; [apply truthy_chunks_truthy|simpl; lia]).
    rewrite <- (app_nil_r (map Yield _)), Hy. simpl.
    split; [reflexivity|]. split; [apply truthy_chunks_truthy|simpl; lia].
  - exists [], [VStr ""]. split; [reflexivity|].
    rewrite yielded_app, Hsetup. simpl. split; [done|]. split; [constructor|lia].
Qed.

(** X10: when a step of [generate_embedding] fails with [e], the call
    returns the empty list and the last thing it does is print
    ["Error generating embedding: "] followed by [str(e)]. *)
Theorem generate_embedding_reports_failures sdk self model text tr e :
  embedding_failure sdk self model text e →
  ∃ new,
    generate_embedding sdk self model text tr = (Ok [], tr ++ new)
    ∧ last new = Some (Print ("Error generating embedding: " +:+ exc_str e)).
Proof.
  unfold generate_embedding, generate_embedding_body, try_except.
  intros [Himp | Himp Hinit | Himp Hinit Hq]; unfold embeddings_of in *; run_monad.
  - rewrite Himp. simpl. rewrite <- app_assoc. eexists. split; [reflexivity|]. done.
  - rewrite Himp, Hinit. simpl. rewrite <- !app_assoc. eexists. split; [reflexivity|]. done.
  - rewrite Himp, Hinit, Hq. simpl. rewrite <- !app_assoc.
    eexists. split; [reflexivity|]. done.
Qed.

Lemma generate_embedding_reports_failures_witness :
  ∃ new,
    generate_embedding Fixtures.sdk_no_embeddings Fixtures.self
      "ibm/slate-125m-english-rtrvr" "What is AI?" [] = (Ok [], [] ++ new)
    ∧ last new
      = Some (Print ("Error generating embedding: "
                     +:+ exc_str Fixtures.no_embeddings_error)).
Proof.
  apply (generate_embedding_reports_failures Fixtures.sdk_no_embeddings Fixtures.self
           "ibm/slate-125m-english-rtrvr" "What is AI?" []
           Fixtures.no_embeddings_error).
  apply embeddings_missing. reflexivity.
Defined.

(** X11: a query result that is not a list (a tuple, [None]) is dropped
    without a word: [generate_embedding] returns the empty list and prints
    nothing, the three SDK steps being all it has done. *)
Theorem generate_embedding_drops_non_list sdk self model text tr v :
  import_Embeddings sdk = None →
  Embeddings_init sdk (embeddings_of self model) = None →
  embed_query sdk (embeddings_of self model) text = Ok v →
  (∀ l, v ≠ VList l) →
  generate_embedding sdk self model text tr
  = (Ok [], tr ++ [Import_Embeddings; New_Embeddings (embeddings_of self model);
                   Call_embed_query (embeddings_of self model) text]).
Proof.
  unfold generate_embedding, generate_embedding_body, try_except, embeddings_of.
  intros Himp Hinit Hq Hv. run_monad. rewrite Himp, Hinit, Hq. simpl.
  rewrite <- !app_assoc. simpl. destruct v; try done. by destruct (Hv l).
Qed.

Lemma generate_embedding_drops_non_list_witness :
  generate_embedding Cases.sdk_tuple_embedding Fixtures.self
    "ibm/slate-125m-english-rtrvr" "What is AI?" []
  = (Ok [],
     [] ++ [Import_Embeddings;
            New_Embeddings (embeddings_of Fixtures.self "ibm/slate-125m-english-rtrvr");
            Call_embed_query
              (embeddings_of Fixtures.self "ibm/slate-125m-english-rtrvr")
              "What is AI?"]).
Proof.
  apply (generate_embedding_drops_non_list Cases.sdk_tuple_embedding Fixtures.self
           "ibm/slate-125m-english-rtrvr" "What is AI?" []
           (VObj "tuple" "(0.5, 0.25)")).
  - reflexivity.
  - reflexivity.
  - reflexivity.
  - intros l. discriminate.
Defined.

Lemma init_import_run sdk api_key project_id url tr e :
  import_sdk sdk = Some e →
  init sdk api_key project_id url tr
  = (Raise (if is_ImportError e then Exc ImportError install_message else e),
     tr ++ [Import_sdk]).
Proof.
  intros Himp. unfold init, try_except. run_monad. rewrite Himp. simpl.
  unfold bind. by destruct (is_ImportError e).
Qed.

(** X17: when the import of the SDK fails, [__init__] builds nothing: an
    [ImportError] (or a subclass, such as [ModuleNotFoundError]) is replaced
    by an [ImportError] that says how to install the package, and any other
    exception is raised as it is. *)
Theorem init_import_failure sdk api_key project_id url tr e :
  import_sdk sdk = Some e →
  init sdk api_key project_id url tr
  = (Raise (if is_ImportError e
            then Exc ImportError
                   "ibm-watsonx-ai package is required. Install it with: pip install ibm-watsonx-ai"
            else e),
     tr ++ [Import_sdk]).
Proof.
  intros Himport. unfold init, try_except. run_monad. rewrite Himport. simpl.
  unfold bind. by destruct (is_ImportError e).
Qed.

Lemma init_import_failure_witness :
  init Cases.sdk_not_installed (VStr "key") (VStr "p1") default_url []
  = (Raise (if is_ImportError Cases.not_installed_error
            then Exc ImportError
                   "ibm-watsonx-ai package is required. Install it with: pip install ibm-watsonx-ai"
            else Cases.not_installed_error),
     [] ++ [Import_sdk]).
Proof.
  apply (init_import_failure Cases.sdk_not_installed (VStr "key") (VStr "p1")
           default_url [] Cases.not_installed_error).
  reflexivity.
Defined.

(** X18: [__init__] returns a client exactly when the import, the
    credentials, the API client and the choice of the default project all go
    through, and the client then holds the key, the project and the URL it
    was given, with credentials built from the key and the URL. *)
Theorem init_returns_iff sdk api_key project_id url tr c :
  let creds := {| cred_api_key := api_key; cred_url := url |} in
  fst (init sdk api_key project_id url tr) = Ok c
  ↔ import_sdk sdk = None
    ∧ Credentials_init sdk creds = None
    ∧ APIClient_init sdk creds = None
    ∧ set_default_project sdk {| api_credentials := creds; default_project := None |}
        project_id = None
    ∧ c = {| WatsonXClient.api_key := api_key; WatsonXClient.project_id := project_id;
             WatsonXClient.url := url; credentials := creds;
             client := {| api_credentials := creds;
                          default_project := Some project_id |} |}.
Proof.
  intros creds. unfold init, try_except. run_monad. fold creds.
  destruct (import_sdk sdk) as [e|]; simpl.
  { unfold bind. destruct (is_ImportError e); simpl; split; [done| |done|]; by intros []. }
  unfold bind. simpl.
  destruct (Credentials_init sdk creds); simpl; [split; [done|naive_solver]|].
  destruct (APIClient_init sdk creds); simpl; [split; [done|naive_solver]|].
  destruct (set_default_project sdk _ project_id); simpl; [split; [done|naive_solver]|].
  split; [intros [= <-]; done|]. by intros (_ & _ & _ & _ & ->).
Qed.

End ClientExtras.

(** ** More facts about the composition root *)

Module FactoryExtras.

Import WatsonXClient Factory ClientFacts FactoryFacts Runs ClientExtras.

Lemma make_llm_client_local sdk cfg st h :
  String.eqb (lower (LLM_BACKEND cfg)) "watsonx" = false →
  OLLAMA_CONFIG cfg !! "host" = Some h →
  make_llm_client sdk cfg st
  = (Ok (Ollama {| host := h |}, OLLAMA_CONFIG cfg),
     {| heap := heap st; out := out st ++ [New_OllamaClient h] |}).
Proof.
  intros Hbackend Hhost. unfold make_llm_client. rewrite Hbackend.
  unfold bind, lift_outcome, getitem, log, zoom, emit, ret. simpl.
  by rewrite Hhost.
Qed.

(** X19: the default is looked up before the mode is: with a table that
    has no ["default"] entry, [get_agent] and [get_indexing_pipeline] raise
    [KeyError: 'default'] for every mode, also for one the table has, after
    the client has been built and with the table untouched. *)
Theorem missing_default_entry sdk cfg Agent_init mode st h :
  String.eqb (lower (LLM_BACKEND cfg)) "watsonx" = false →
  OLLAMA_CONFIG cfg !! "host" = Some h →
  PIPELINE_CONFIGS cfg !! "default" = None →
  let st' := {| heap := heap st;
                out := out st ++ [Load_dotenv; New_OllamaClient h] |} in
  get_agent sdk cfg Agent_init mode st = (Raise (Exc KeyError "'default'"), st')
  ∧ get_indexing_pipeline sdk cfg mode st = (Raise (Exc KeyError "'default'"), st').
Proof.
  intros Hbackend Hhost Hdefault st'. unfold get_agent, get_indexing_pipeline.
  split.
  all: erewrite bind_ok; [|reflexivity].
  all: erewrite bind_ok; [|by apply make_llm_client_local].
  all: erewrite bind_raise;
    [|unfold lift_outcome, resolve, table_getitem; rewrite Hdefault; reflexivity].
  all: subst st'; simpl; by rewrite <- app_assoc.
Qed.

Lemma missing_default_entry_witness :
  get_agent Fixtures.sdk_up Cases.no_default_config Fixtures.agent_built "fast" Fixtures.start
  = (Raise (Exc KeyError "'default'"),
     {| heap := heap Fixtures.start;
        out := out Fixtures.start ++ [Load_dotenv; New_OllamaClient Cases.localhost] |})
  ∧ get_indexing_pipeline Fixtures.sdk_up Cases.no_default_config "fast" Fixtures.start
    = (Raise (Exc KeyError "'default'"),
       {| heap := heap Fixtures.start;
          out := out Fixtures.start ++ [Load_dotenv; New_OllamaClient Cases.localhost] |}).
Proof.
  apply (missing_default_entry Fixtures.sdk_up Cases.no_default_config Fixtures.agent_built "fast"
           Fixtures.start Cases.localhost); reflexivity.
Defined.

(** X20: a storage sub-record that is there is never overwritten: when
    the resolved entry has ['storage'], [get_agent] leaves the whole table
    as it was, whatever else the call does. *)
Theorem get_agent_keeps_existing_storage sdk cfg Agent_init mode st l d :
  resolve (PIPELINE_CONFIGS cfg) mode = Ok l →
  heap st !! l = Some d →
  is_Some (d !! "storage") →
  heap (snd (get_agent sdk cfg Agent_init mode st)) = heap st.
Proof.
  intros Hresolve Hd Hstorage.
  pose proof (make_llm_client_heap sdk cfg
                {| heap := heap st; out := out st ++ [Load_dotenv] |}) as Hclient.
  simpl in Hclient.
  unfold get_agent. erewrite bind_ok; [|reflexivity].
  unfold bind at 1.
  destruct (make_llm_client sdk cfg _) as [[backend|e] st1]; simpl in Hclient; [|done].
  unfold bind at 1, lift_outcome. rewrite Hresolve.
  unfold bind at 1, deref. rewrite Hclient, Hd.
  rewrite bool_decide_eq_true_2 by done. simpl. unfold bind, ret, check. simpl.
  by destruct (Agent_init _).
Qed.

Lemma get_agent_keeps_existing_storage_witness :
  heap (snd (get_agent Fixtures.sdk_up Fixtures.local_config Fixtures.agent_built
               "research" Cases.stored))
  = heap Cases.stored.
Proof.
  apply (get_agent_keeps_existing_storage Fixtures.sdk_up Fixtures.local_config Fixtures.agent_built
           "research" Cases.stored 0 Cases.custom_storage).
  - reflexivity.
  - reflexivity.
  - exists (VDict {[ "db_path" := VStr "/data/index" ]}). reflexivity.
Defined.


Lemma log_run ev st :
  log ev st = (Ok tt, {| heap := heap st; out := out st ++ [ev] |}).
Proof. reflexivity. Qed.

Lemma init_outcome sdk api_key project_id url tr1 tr2 :
  fst (init sdk api_key project_id url tr1) = fst (init sdk api_key project_id url tr2).
Proof.
  unfold init, try_except. run_monad.
  destruct (import_sdk sdk) as [e|]; simpl.
  { unfold bind. by destruct (is_ImportError e). }
  unfold bind. simpl. case_sdk; done.
Qed.

(** Which client is built does not depend on what happened before. *)
Lemma make_llm_client_outcome sdk cfg st1 st2 :
  fst (make_llm_client sdk cfg st1) = fst (make_llm_client sdk cfg st2).
Proof.
  unfold make_llm_client. destruct (String.eqb _ _).
  - unfold bind, lift_outcome, ret, raise.
    destruct (getitem (WATSONX_CONFIG cfg) "api_key") as [k|]; [|done].
    destruct (negb (truthy k)); [done|].
    destruct (getitem (WATSONX_CONFIG cfg) "project_id") as [p|]; [|done].
    simpl. destruct (negb (truthy p)); [done|].
    destruct (getitem (WATSONX_CONFIG cfg) "url") as [u|]; [|done].
    unfold zoom.
    pose proof (init_outcome sdk k p u (out st1) (out st2)) as Hinit.
    destruct (init sdk k p u (out st1)) as [[c1|e1] t1],
      (init sdk k p u (out st2)) as [[c2|e2] t2]; simpl in *; congruence.
  - unfold bind, lift_outcome, ret, log.
    by destruct (getitem (OLLAMA_CONFIG cfg) "host").
Qed.

(** What a call of [get_agent] that returns has gone through. *)
Lemma get_agent_inv sdk cfg Agent_init mode st agent st1 :
  get_agent sdk cfg Agent_init mode st = (Ok agent, st1) →
  ∃ backend st0 d,
    make_llm_client sdk cfg {| heap := heap st; out := out st ++ [Load_dotenv] |}
    = (Ok backend, st0)
    ∧ resolve (PIPELINE_CONFIGS cfg) mode = Ok (pipeline_configs agent)
    ∧ heap st !! pipeline_configs agent = Some d
    ∧ agent = {| pipeline_configs := pipeline_configs agent;
                 agent_llm_client := fst backend; ollama_config := snd backend |}
    ∧ Agent_init agent = None
    ∧ out st1 = out st0
    ∧ heap st1 = <[pipeline_configs agent :=
                     if bool_decide (is_Some (d !! "storage")) then d
                     else <["storage" := default_storage]> d]> (heap st).
Proof.
  pose proof (make_llm_client_heap sdk cfg
                {| heap := heap st; out := out st ++ [Load_dotenv] |}) as Hclient.
  simpl in Hclient.
  unfold get_agent. erewrite bind_ok; [|reflexivity].
  unfold bind at 1.
  destruct (make_llm_client sdk cfg _) as [[backend|e] st0]; simpl in Hclient; [|done].
  unfold bind at 1, lift_outcome.
  destruct (resolve (PIPELINE_CONFIGS cfg) mode) as [l|e]; [|done].
  unfold bind at 1, deref.
  destruct (heap st0 !! l) as [d|] eqn:Hd; [|done].
  rewrite Hclient in Hd.
  set (handed := {| pipeline_configs := l; agent_llm_client := fst backend;
                    ollama_config := snd backend |}).
  case_bool_decide as Hstorage; simpl.
  - unfold bind, ret, check. simpl. fold handed.
    destruct (Agent_init handed) as [e|] eqn:Hinit; simpl; [done|].
    intros [= <- <-]. simpl.
    exists backend, st0, d. repeat split; try done.
    rewrite bool_decide_eq_true_2 by done. by rewrite insert_id.
  - unfold bind, setitem, deref, ret, bind, check. rewrite Hclient, Hd. simpl.
    fold handed.
    destruct (Agent_init handed) as [e|] eqn:Hinit; simpl; [done|].
    intros [= <- <-]. simpl.
    exists backend, st0, d. repeat split; try done.
    by rewrite bool_decide_eq_false_2, Hclient by done.
Qed.

(** X21: [get_agent] is idempotent on the table: after a call that
    returns, the same call returns the same agent again and changes nothing
    in the table. *)
Theorem get_agent_idempotent sdk cfg Agent_init mode st agent st1 :
  get_agent sdk cfg Agent_init mode st = (Ok agent, st1) →
  ∃ st2,
    get_agent sdk cfg Agent_init mode st1 = (Ok agent, st2) ∧ heap st2 = heap st1.
Proof.
  intros Hrun.
  destruct (get_agent_inv _ _ _ _ _ _ _ Hrun)
    as (backend & st0 & d & Hclient & Hresolve & Hd & Hagent & Haccepted & _ & Hheap).
  set (l := pipeline_configs agent) in *.
  assert (∃ d', heap st1 !! l = Some d' ∧ is_Some (d' !! "storage")) as (d' & Hd' & Hs).
  { rewrite Hheap, lookup_insert_eq. eexists. split; [done|].
    case_bool_decide; [done|]. rewrite lookup_insert_eq. eauto. }
  pose proof (make_llm_client_heap sdk cfg
                {| heap := heap st1; out := out st1 ++ [Load_dotenv] |}) as Hheap2.
  pose proof (make_llm_client_outcome sdk cfg
                {| heap := heap st1; out := out st1 ++ [Load_dotenv] |}
                {| heap := heap st; out := out st ++ [Load_dotenv] |}) as Hsame.
  rewrite Hclient in Hsame. simpl in Hheap2, Hsame.
  unfold get_agent. erewrite bind_ok; [|apply log_run].
  unfold bind at 1.
  destruct (make_llm_client sdk cfg
              {| heap := heap st1; out := out st1 ++ [Load_dotenv] |})
    as [[backend2|e] st3]; simpl in Hheap2, Hsame; [|done].
  assert (backend2 = backend) as -> by congruence.
  unfold bind at 1, lift_outcome. rewrite Hresolve.
  unfold bind at 1, deref. rewrite Hheap2, Hd'.
  rewrite bool_decide_eq_true_2 by done. simpl. unfold bind, ret, check. simpl.
  rewrite <- Hagent, Haccepted. simpl.
  eexists. split; [reflexivity|done].
Qed.

Lemma get_agent_idempotent_witness :
  ∃ st2,
    get_agent Fixtures.sdk_up Fixtures.local_config Fixtures.agent_built
      "research" Cases.after_get_agent
    = (Ok Cases.local_agent, st2)
    ∧ heap st2 = heap Cases.after_get_agent.
Proof.
  apply (get_agent_idempotent Fixtures.sdk_up Fixtures.local_config
           Fixtures.agent_built "research"
           Fixtures.start Cases.local_agent Cases.after_get_agent).
  reflexivity.
Defined.




Lemma lower_ascii_letter (c : ascii) (p : ascii) :
  p ∈ ["w"; "a"; "t"; "s"; "o"; "n"; "x"]%char →
  Ascii.eqb (lower_ascii c) p
  = (Ascii.eqb c p || Ascii.eqb c (ascii_of_N (N_of_ascii p - 32))).
Proof.
  intros Hp.
  repeat (apply elem_of_cons in Hp as [-> | Hp]);
    [..| by apply elem_of_nil in Hp];
    destruct c as [[] [] [] [] [] [] [] []]; reflexivity.
Qed.

Lemma lower_eqb_same_letters pattern s :
  Forall (λ p, p ∈ ["w"; "a"; "t"; "s"; "o"; "n"; "x"]%char)
    (list_ascii_of_string pattern) →
  String.eqb (lower s) pattern = same_letters pattern s.
Proof.
  revert s. induction pattern as [|p pattern IH]; intros s Hletters.
  - by destruct s.
  - apply Forall_cons in Hletters as [Hp Hletters].
    destruct s as [|c s]; [done|]. simpl.
    rewrite (lower_ascii_letter c p Hp), (IH s Hletters).
    by destruct (_ || _).
Qed.

(** X23: the test [LLM_BACKEND.lower() == "watsonx"] holds exactly for
    the spellings of ["watsonx"] that differ from it in the case of letters
    only; every other name selects the local backend. *)
Theorem cloud_backend_spellings (s : string) :
  String.eqb (lower s) "watsonx" = same_letters "watsonx" s.
Proof.
  apply lower_eqb_same_letters. simpl. repeat constructor.
Qed.

(** X24: with the cloud backend selected and a project identifier that
    is empty or unset, whatever the credential, both targets raise the
    [ValueError] that names [WATSONX_PROJECT_ID], after [load_dotenv] and
    before anything is built. *)
Theorem missing_project_fails_fast sdk cfg Agent_init mode st k p :
  lower (LLM_BACKEND cfg) = "watsonx" →
  WATSONX_CONFIG cfg !! "api_key" = Some k →
  WATSONX_CONFIG cfg !! "project_id" = Some p →
  truthy p = false →
  let failed := (Exc ValueError incomplete_message) in
  let st' := {| heap := heap st; out := out st ++ [Load_dotenv] |} in
  mentions "WATSONX_PROJECT_ID" (exc_str failed) = true
  ∧ get_agent sdk cfg Agent_init mode st = (Raise failed, st')
  ∧ get_indexing_pipeline sdk cfg mode st = (Raise failed, st').
Proof.
  intros Hbackend Hkey Hproject Hfalsy failed st'.
  split; [by vm_compute|].
  assert (make_llm_client sdk cfg st' = (Raise failed, st')) as Hclient.
  { unfold make_llm_client. rewrite Hbackend. simpl.
    unfold bind, lift_outcome, getitem. rewrite Hkey.
    destruct (negb (truthy k)); simpl; [done|].
    rewrite Hproject. simpl. by rewrite Hfalsy. }
  unfold get_agent, get_indexing_pipeline. split.
  all: erewrite bind_ok; [|apply log_run].
  all: erewrite bind_raise; [done|exact Hclient].
Qed.

Lemma missing_project_fails_fast_witness :
  mentions "WATSONX_PROJECT_ID" (exc_str (Exc ValueError incomplete_message)) = true
  ∧ get_agent Fixtures.sdk_up Cases.cloud_no_project Fixtures.agent_built "default" Fixtures.start
    = (Raise (Exc ValueError incomplete_message),
       {| heap := heap Fixtures.start; out := out Fixtures.start ++ [Load_dotenv] |})
  ∧ get_indexing_pipeline Fixtures.sdk_up Cases.cloud_no_project "default" Fixtures.start
    = (Raise (Exc ValueError incomplete_message),
       {| heap := heap Fixtures.start; out := out Fixtures.start ++ [Load_dotenv] |}).
Proof.
  apply (missing_project_fails_fast Fixtures.sdk_up Cases.cloud_no_project
           Fixtures.agent_built "default" Fixtures.start (VStr "key") VNone); reflexivity.
Defined.

(** The cloud client is built from the three entries of the configuration. *)
Lemma make_llm_client_cloud sdk cfg st k p u :
  lower (LLM_BACKEND cfg) = "watsonx" →
  WATSONX_CONFIG cfg !! "api_key" = Some k →
  WATSONX_CONFIG cfg !! "project_id" = Some p →
  WATSONX_CONFIG cfg !! "url" = Some u →
  truthy k = true →
  truthy p = true →
  make_llm_client sdk cfg st
  = match init sdk k p u (out st) with
    | (Ok c, tr) => (Ok (Watsonx c, WATSONX_CONFIG cfg), {| heap := heap st; out := tr |})
    | (Raise e, tr) => (Raise e, {| heap := heap st; out := tr |})
    end.
Proof.
  intros Hbackend Hkey Hproject Hurl Hk Hp.
  unfold make_llm_client. rewrite Hbackend. simpl.
  unfold bind, lift_outcome, getitem. rewrite Hkey, Hk. simpl.
  rewrite Hproject, Hp. simpl. rewrite Hurl. unfold zoom.
  by destruct (init sdk k p u (out st)) as [[c|e] tr].
Qed.

(** X25: with the cloud backend selected and configured, a missing SDK
    package is a configuration error too: both targets raise the
    [ImportError] that says how to install it, and nothing has been built or
    changed by then. *)
Theorem missing_sdk_fails_fast sdk cfg Agent_init mode st k p u e :
  lower (LLM_BACKEND cfg) = "watsonx" →
  WATSONX_CONFIG cfg !! "api_key" = Some k →
  WATSONX_CONFIG cfg !! "project_id" = Some p →
  WATSONX_CONFIG cfg !! "url" = Some u →
  truthy k = true →
  truthy p = true →
  import_sdk sdk = Some e →
  is_ImportError e = true →
  let failed := Exc ImportError install_message in
  let st' := {| heap := heap st; out := out st ++ [Load_dotenv; Import_sdk] |} in
  get_agent sdk cfg Agent_init mode st = (Raise failed, st')
  ∧ get_indexing_pipeline sdk cfg mode st = (Raise failed, st').
Proof.
  intros Hbackend Hkey Hproject Hurl Hk Hp Himport Hclass failed st'.
  assert (make_llm_client sdk cfg {| heap := heap st; out := out st ++ [Load_dotenv] |}
          = (Raise failed, st')) as Hclient.
  { rewrite (make_llm_client_cloud sdk cfg _ k p u) by done. simpl.
    rewrite (init_import_run sdk k p u _ e Himport), Hclass.
    subst st'. by rewrite <- app_assoc. }
  unfold get_agent, get_indexing_pipeline. split.
  all: erewrite bind_ok; [|apply log_run].
  all: erewrite bind_raise; [done|exact Hclient].
Qed.

Lemma missing_sdk_fails_fast_witness :
  get_agent Cases.sdk_not_installed Cases.cloud_ready Fixtures.agent_built "default" Fixtures.start
  = (Raise (Exc ImportError install_message),
     {| heap := heap Fixtures.start;
        out := out Fixtures.start ++ [Load_dotenv; Import_sdk] |})
  ∧ get_indexing_pipeline Cases.sdk_not_installed Cases.cloud_ready "default"
      Fixtures.start
    = (Raise (Exc ImportError install_message),
       {| heap := heap Fixtures.start;
          out := out Fixtures.start ++ [Load_dotenv; Import_sdk] |}).
Proof.
  apply (missing_sdk_fails_fast Cases.sdk_not_installed Cases.cloud_ready
           Fixtures.agent_built "default" Fixtures.start (VStr "key") (VStr "p1") default_url
           Cases.not_installed_error); reflexivity.
Defined.






End FactoryExtras.
